(** * E-commerce captioning pipeline: a shallow embedding of the Python sources

    The development follows the repository file by file:
    - [Py]        the Python values and builtins the sources rely on
                  (JSON values, truthiness, [str.strip], exceptions);
    - [Config]    src/config.py       ([pick_device]);
    - [Dataset]   src/dataset.py      ([load_jsonl], [ProductCaptionDataset]);
    - [TrainLora] src/train_lora.py   ([BlipCollator], the training loop);
    - [Predict]   src/predict.py      (batch inference);
    - [Evaluate]  src/evaluate.py     (metrics report).

    External collaborators (the JSON parser, the tokenizer/processor, the
    captioning model, the metric libraries) are Section variables: every
    statement holds for all of them. *)

From stdpp Require Import gmap strings list.
From Stdlib Require Import ZArith Lia.

(* ===================================================================== *)
(** ** Python values and builtins *)
(* ===================================================================== *)

Module Py.

(** Exceptions the sources can raise or let escape. *)
Inductive exn :=
| FileNotFoundError
| JSONDecodeError
| AttributeError
| TypeError
| KeyError
| ZeroDivisionError
| RuntimeError
| LibraryError (msg : string).

(** A computation either returns or raises. *)
Inductive result (A : Type) :=
| Ok (a : A)
| Raise (e : exn).
Arguments Ok {A} a.
Arguments Raise {A} e.

#[global] Instance result_ret : MRet result := fun _ a => Ok a.
#[global] Instance result_bind : MBind result := fun _ _ f m =>
  match m with
  | Ok a => f a
  | Raise e => Raise e
  end.

(** What [json.loads] produces.  A non-integral number keeps its printed
    form and whether it is non-zero (the only things the sources observe
    through [str] and [not]). *)
#[warnings="-register-all"]
Inductive json :=
| JNull
| JBool (b : bool)
| JInt (z : Z)
| JFloat (repr : string) (nonzero : bool)
| JStr (s : string)
| JArr (l : list json)
| JObj (m : gmap string json).

(** Python's truth value: [None], [False], zero, the empty string, the empty
    list and the empty dict are false. *)
Definition truthy (v : json) : bool :=
  match v with
  | JNull => false
  | JBool b => b
  | JInt z => negb (z =? 0)%Z
  | JFloat _ nz => nz
  | JStr s => negb (String.eqb s "")
  | JArr l => match l with [] => false | _ => true end
  | JObj m => match map_to_list m with [] => false | _ => true end
  end.

Definition is_None (v : json) : bool :=
  match v with JNull => true | _ => false end.

(** [r.get(key)]: [None] for an absent key; a non-dict has no [get]. *)
Definition dict_get (r : json) (key : string) : result json :=
  match r with
  | JObj m => Ok (default JNull (m !! key))
  | _ => Raise AttributeError
  end.

(** [r.get(key, dflt)]. *)
Definition dict_get_default (r : json) (key : string) (dflt : json) : result json :=
  match r with
  | JObj m => Ok (default dflt (m !! key))
  | _ => Raise AttributeError
  end.

(** [str.isspace] on the ASCII range: TAB..CR, FS..US and the blank. *)
Definition isspace (c : Ascii.ascii) : bool :=
  let n := Ascii.nat_of_ascii c in
  ((9 <=? n)%nat && (n <=? 13)%nat) || ((28 <=? n)%nat && (n <=? 32)%nat).

Fixpoint lstrip (s : string) : string :=
  match s with
  | EmptyString => EmptyString
  | String c s' => if isspace c then lstrip s' else s
  end.

Fixpoint rstrip (s : string) : string :=
  match s with
  | EmptyString => EmptyString
  | String c s' =>
      match rstrip s' with
      | EmptyString => if isspace c then EmptyString else String c EmptyString
      | r => String c r
      end
  end.

(** [line.strip()] *)
Definition strip (s : string) : string := rstrip (lstrip s).

(** [not line] for a string. *)
Definition str_empty (s : string) : bool :=
  match s with EmptyString => true | _ => false end.

(** A file system: a path either names nothing or names a file, held as
    its lines (what iterating over the open file yields). *)
Definition filesystem := string -> option (list string).

(** [Path(p).exists()] *)
Definition path_exists (fs : filesystem) (p : string) : bool :=
  match fs p with Some _ => true | None => false end.

(** [path.open("r")]: the lines of the file, or [FileNotFoundError]. *)
Definition open_read (fs : filesystem) (p : string) : result (list string) :=
  match fs p with
  | Some lines => Ok lines
  | None => Raise FileNotFoundError
  end.

(** [[f(x) for x in xs]], left to right, stopping at the first raise. *)
Fixpoint list_comp {A B} (f : A -> result B) (xs : list A) : result (list B) :=
  match xs with
  | [] => Ok []
  | x :: rest =>
      y ← f x;
      ys ← list_comp f rest;
      Ok (y :: ys)
  end.

(** [xs[:limit]] *)
Definition slice_to {A} (xs : list A) (limit : Z) : list A :=
  if (0 <=? limit)%Z then take (Z.to_nat limit) xs
  else take (length xs - Z.to_nat (- limit)) xs.

End Py.
Import Py.

(* ===================================================================== *)
(** ** src/config.py *)
(* ===================================================================== *)

Module Config.

Inductive device := cuda | mps | cpu.
Inductive dtype := float16 | float32.

#[global] Instance device_eq_dec : EqDecision device.
Proof. solve_decision. Defined.
#[global] Instance dtype_eq_dec : EqDecision dtype.
Proof. solve_decision. Defined.

(** What the torch runtime reports about the host. *)
Record probe := {
  cuda_is_available : bool;
  mps_is_available : bool   (* [hasattr(torch.backends, "mps") and ...is_available()] *)
}.

Definition pick_device (p : probe) : device * dtype :=
  if cuda_is_available p then (cuda, float16)
  else if mps_is_available p then (mps, float16)
  else (cpu, float32).

End Config.

(* ===================================================================== *)
(** ** src/dataset.py *)
(* ===================================================================== *)

Module Dataset.

Record Sample := { image_path : string; text : string }.

Section WithBuiltins.
(** [json.loads] on one stripped line; [None] stands for [JSONDecodeError]. *)
Variable json_loads : string -> option json.
(** [str(v)] *)
Variable py_str : json -> string.

Definition loads (line : string) : result json :=
  match json_loads line with
  | Some v => Ok v
  | None => Raise JSONDecodeError
  end.

(** The body of [for line in f] in [load_jsonl]; [rows] is the list built
    so far. *)
Fixpoint load_jsonl_lines (lines : list string) (rows : list json) : result (list json) :=
  match lines with
  | [] => Ok rows
  | line :: rest =>
      let line := strip line in
      if str_empty line then load_jsonl_lines rest rows
      else
        r ← loads line;
        load_jsonl_lines rest (rows ++ [r])
  end.

Definition load_jsonl (fs : filesystem) (path : string) : result (list json) :=
  lines ← open_read fs path;
  load_jsonl_lines lines [].

(** The loop "keep only valid rows" of [ProductCaptionDataset.__init__]. *)
Fixpoint keep_valid (rows : list json) (clean : list Sample) : result (list Sample) :=
  match rows with
  | [] => Ok clean
  | r :: rest =>
      ip ← dict_get r "image_path";
      txt ← dict_get r "text";
      if negb (truthy ip) || negb (truthy txt) then keep_valid rest clean
      else keep_valid rest (clean ++ [{| image_path := py_str ip; text := py_str txt |}])
  end.

(** [ProductCaptionDataset(jsonl_path).rows] *)
Definition ProductCaptionDataset (fs : filesystem) (jsonl_path : string) : result (list Sample) :=
  rows ← load_jsonl fs jsonl_path;
  keep_valid rows [].


(** [len(ds)] and [ds[idx]] *)
Definition ds_len (ds : list Sample) : Z := Z.of_nat (length ds).
Definition ds_getitem (ds : list Sample) (idx : nat) : option Sample := ds !! idx.

(** *** The Sample Store in the words of the specification *)

(** The record carried by each non-empty line, when every such line is a
    JSON object. *)
Fixpoint records_of_lines (lines : list string) : option (list (gmap string json)) :=
  match lines with
  | [] => Some []
  | line :: rest =>
      if str_empty (strip line) then records_of_lines rest
      else
        match json_loads (strip line), records_of_lines rest with
        | Some (JObj m), Some ms => Some (m :: ms)
        | _, _ => None
        end
  end.

(** A field is present and non-empty. *)
Definition field_nonempty (m : gmap string json) (key : string) : bool :=
  match m !! key with
  | Some v => truthy v
  | None => false
  end.

Definition valid_record (m : gmap string json) : bool :=
  field_nonempty m "image_path" && field_nonempty m "text".

Definition sample_of_record (m : gmap string json) : Sample :=
  {| image_path := py_str (default JNull (m !! "image_path"));
     text := py_str (default JNull (m !! "text")) |}.

Definition spec_store (records : list (gmap string json)) : list Sample :=
  sample_of_record <$> filter (fun m => valid_record m = true) records.

End WithBuiltins.

End Dataset.

(* ===================================================================== *)
(** ** src/train_lora.py *)
(* ===================================================================== *)

Module TrainLora.
Import Config Dataset.

(** *** [BlipCollator]

    Tensors live in a store and are handled through references, so that
    sharing and in-place updates can be told apart from copies. *)
Abbreviation store := (gmap nat).

Section Collator.
Variables image tensor : Type.

(** [dataset.load_image_rgb] *)
Variable load_image_rgb : string -> result image.

(** What the processor returns for a list of images and a list of texts. *)
Record encoding := {
  enc_pixel_values : tensor;
  enc_input_ids : tensor;
  enc_attention_mask : tensor
}.
Variable processor : list image -> list string -> result encoding.

(** A new tensor gets storage of its own. *)
Definition alloc (t : tensor) (σ : store tensor) : nat * store tensor :=
  let l := fresh (dom σ) in (l, <[l := t]> σ).

(** [t.clone()] *)
Definition clone (l : nat) (σ : store tensor) : result (nat * store tensor) :=
  match σ !! l with
  | Some t => Ok (alloc t σ)
  | None => Raise (LibraryError "dangling tensor")
  end.

(** An in-place operation on the tensor behind [l]. *)
Definition inplace (f : tensor -> tensor) (l : nat) (σ : store tensor) : store tensor :=
  alter f l σ.

(** [inputs[key]] *)
Definition getitem (inputs : gmap string nat) (key : string) : result nat :=
  match inputs !! key with
  | Some l => Ok l
  | None => Raise KeyError
  end.

(** [BlipCollator.__call__] *)
Definition BlipCollator_call (batch : list Sample) (σ : store tensor)
  : result (gmap string nat * store tensor) :=
  images ← list_comp (fun s => load_image_rgb (image_path s)) batch;
  let texts := text <$> batch in
  enc ← processor images texts;
  let '(l_pix, σ1) := alloc (enc_pixel_values enc) σ in
  let '(l_ids, σ2) := alloc (enc_input_ids enc) σ1 in
  let '(l_att, σ3) := alloc (enc_attention_mask enc) σ2 in
  let inputs : gmap string nat :=
    <["attention_mask" := l_att]> (<["input_ids" := l_ids]> (<["pixel_values" := l_pix]> ∅)) in
  ids ← getitem inputs "input_ids";
  '(l_lab, σ4) ← clone ids σ3;
  Ok (<["labels" := l_lab]> inputs, σ4).

(** The tensor a key of the batch denotes. *)
Definition deref (inputs : gmap string nat) (σ : store tensor) (key : string) : option tensor :=
  l ← inputs !! key; σ !! l.

End Collator.

(** *** The training loop of [main] *)

Record Args := {
  train_jsonl : string;
  batch_size : Z;
  grad_accum : Z;
  epochs : Z;
  warmup_steps : Z;
  max_train_steps : Z
}.

(** What happens on one micro-batch. *)
Record event := {
  ev_step : Z;        (* [step] when the micro-batch starts *)
  ev_optim : bool;    (* the optimizer update was applied *)
  ev_sched : bool     (* [sched.step()] was called *)
}.

Record state := {
  step : Z;
  optim_updates : Z;  (* optimizer updates applied so far *)
  sched_pos : Z;      (* schedule position *)
  trace : list event
}.

Definition init_state : state :=
  {| step := 0; optim_updates := 0; sched_pos := 0; trace := [] |}.

(** The [DataLoader]: its length and the batch of samples drawn at each
    position of each epoch (the shuffle is the sampler's business). *)
Record loader := {
  loader_len : nat;
  loader_draw : nat -> nat -> list Sample
}.

Definition epoch_batches (ld : loader) (epoch : nat) : list (list Sample) :=
  loader_draw ld epoch <$> seq 0 (loader_len ld).

Inductive flow := Exhausted | Broke | Raised (e : exn).

Inductive action :=
| LoadModel
| LoadDataset
| MicroBatch (ev : event)
| SaveAdapter.

Record summary := {
  total_steps : Z;
  num_warmup_steps : Z;
  num_training_steps : Z;
  final : state
}.

Section Loop.
Variable json_loads : string -> option json.
Variable py_str : json -> string.
(** [DataLoader(train_ds, batch_size=...)] *)
Variable DataLoader : list Sample -> Z -> result loader.
(** The collator, run by the loader on each batch it yields. *)
Variable batch : Type.
Variable collate : list Sample -> result batch.
(** Whether [scaler.step] finds every gradient finite at a given [step]. *)
Variable grads_finite : Z -> bool.

(** Lines 104-118: forward, backward, the accumulation boundary and
    [step += 1]. *)
Definition micro_batch (K : Z) (st : state) : state :=
  let boundary := ((step st + 1) mod K =? 0)%Z in
  (* [scaler.step(optim)] skips the update when a gradient is not finite *)
  let applied := boundary && grads_finite (step st) in
  let optim' := if applied then (optim_updates st + 1)%Z else optim_updates st in
  (* [sched.step()] *)
  let sched' := if boundary then (sched_pos st + 1)%Z else sched_pos st in
  {| step := (step st + 1)%Z;
     optim_updates := optim';
     sched_pos := sched';
     trace := trace st ++ [{| ev_step := step st; ev_optim := applied; ev_sched := boundary |}] |}.

(** [for batch in train_loader: ...; if step >= total_steps: break] *)
Fixpoint for_batches (K total : Z) (bs : list (list Sample)) (st : state) : flow * state :=
  match bs with
  | [] => (Exhausted, st)
  | b :: rest =>
      match collate b with
      | Raise e => (Raised e, st)
      | Ok _ =>
          let st' := micro_batch K st in
          if (total <=? step st')%Z then (Broke, st')
          else for_batches K total rest st'
      end
  end.

(** [for epoch in range(args.epochs): ...; if step >= total_steps: break] *)
Fixpoint for_epochs (K total : Z) (ld : loader) (es : list nat) (st : state) : flow * state :=
  match es with
  | [] => (Exhausted, st)
  | epoch :: rest =>
      match for_batches K total (epoch_batches ld epoch) st with
      | (Raised e, st') => (Raised e, st')
      | (_, st') =>
          if (total <=? step st')%Z then (Broke, st')
          else for_epochs K total ld rest st'
      end
  end.

(** [main]: the work done, in order, and how the run ends. *)
Definition main (args : Args) (p : probe) (fs : filesystem) : list action * result summary :=
  let '(device, amp_dtype) := pick_device p in
  if negb (bool_decide (device = cuda)) then ([], Raise RuntimeError)
  else
    match ProductCaptionDataset json_loads py_str fs (train_jsonl args) with
    | Raise e => ([LoadModel], Raise e)
    | Ok train_ds =>
        match DataLoader train_ds (batch_size args) with
        | Raise e => ([LoadModel; LoadDataset], Raise e)
        | Ok train_loader =>
            if (grad_accum args =? 0)%Z then ([LoadModel; LoadDataset], Raise ZeroDivisionError)
            else
              let steps_per_epoch :=
                Z.max 1 (Z.of_nat (loader_len train_loader) / grad_accum args) in
              let total := Z.min (max_train_steps args) (steps_per_epoch * epochs args) in
              let warm := Z.min (warmup_steps args) (total / 5) in
              let '(fl, st) :=
                for_epochs (grad_accum args) total train_loader
                  (seq 0 (Z.to_nat (epochs args))) init_state in
              let log := [LoadModel; LoadDataset] ++ (MicroBatch <$> trace st) in
              match fl with
              | Raised e => (log, Raise e)
              | _ =>
                  (log ++ [SaveAdapter],
                   Ok {| total_steps := total;
                         num_warmup_steps := warm;
                         num_training_steps := total;
                         final := st |})
              end
        end
    end.

End Loop.

End TrainLora.


(* ===================================================================== *)
(** ** src/predict.py *)
(* ===================================================================== *)

Module Predict.

Record Args := {
  image : option string;   (* [--image] *)
  jsonl : option string;   (* [--jsonl] *)
  limit : Z;               (* [--limit], 0 = all *)
  out : string             (* [--out] *)
}.

(** What a run leaves behind: a caption on standard output, or the records
    written to the output file. *)
Inductive output :=
| Printed (text : string)
| Written (path : string) (rows : list json).

(** [{**row, "pred_text": p, "error": e}] *)
Definition with_prediction (row : json) (p e : json) : result json :=
  match row with
  | JObj m => Ok (JObj (<["error" := e]> (<["pred_text" := p]> m)))
  | _ => Raise TypeError
  end.

(** [Path(v)] for a value read from a row. *)
Definition Path (v : json) : result string :=
  match v with
  | JStr s => Ok s
  | _ => Raise TypeError
  end.

Section WithCaptioner.
Variable json_loads : string -> option json.
(** [captioner.caption(image_path=..., max_new_tokens=..., num_beams=...)] *)
Variable caption : string -> result string.
Variable fs : filesystem.

Definition loads (line : string) : result json :=
  match json_loads line with
  | Some v => Ok v
  | None => Raise JSONDecodeError
  end.

(** Lines 72-91: the loop over [iter_jsonl(in_path)].  The generator parses
    a line only when the loop asks for it, so nothing after a [break] is
    read.  [n] counts the captions produced, [preds] is the output so far. *)
Fixpoint batch_loop (lim : Z) (lines : list string) (n : Z) (preds : list json)
  : result (list json) :=
  match lines with
  | [] => Ok preds
  | line :: rest =>
      let line := strip line in
      if str_empty line then batch_loop lim rest n preds
      else
        row ← loads line;
        image_path ← dict_get row "image_path";
        if negb (truthy image_path) then batch_loop lim rest n preds
        else
          img_path ← Path image_path;
          if negb (path_exists fs img_path) then
            r ← with_prediction row JNull (JStr "image_not_found");
            batch_loop lim rest n (preds ++ [r])
          else
            pred ← caption img_path;
            r ← with_prediction row (JStr pred) JNull;
            let preds := preds ++ [r] in
            let n := (n + 1)%Z in
            if negb (lim =? 0)%Z && (lim <=? n)%Z then Ok preds
            else batch_loop lim rest n preds
  end.

(** Lines 51-61: single image mode. *)
Definition single_image (img_path : string) : result output :=
  if negb (path_exists fs img_path) then Raise FileNotFoundError
  else
    text ← caption img_path;
    Ok (Printed text).

(** Lines 64-94: batch mode. *)
Definition batch_mode (args : Args) : result output :=
  match jsonl args with
  | None => Raise TypeError   (* [Path(None)] *)
  | Some in_path =>
      match fs in_path with
      | None => Raise FileNotFoundError
      | Some lines =>
          preds ← batch_loop (limit args) lines 0 [];
          Ok (Written (out args) preds)
      end
  end.

Definition main (args : Args) : result output :=
  match image args with
  | Some img_path =>
      if str_empty img_path then batch_mode args   (* an empty [--image] is falsy *)
      else single_image img_path
  | None => batch_mode args
  end.

End WithCaptioner.

(** *** Reading the emitted records *)

Definition field (r : json) (key : string) : option json :=
  match r with
  | JObj m => m !! key
  | _ => None
  end.

(** The field is there and is not [null]. *)
Definition populated (r : json) (key : string) : bool :=
  match field r key with
  | Some v => negb (is_None v)
  | None => false
  end.

(** Exactly one of [pred_text] and [error] is populated. *)
Definition exactly_one (r : json) : bool :=
  xorb (populated r "pred_text") (populated r "error").

Definition is_error_record (r : json) : bool := populated r "error".
Definition is_success_record (r : json) : bool := populated r "pred_text".

(** The rows of the input file: its non-empty lines. *)
Definition input_rows (lines : list string) : list string :=
  filter (fun l => str_empty (strip l) = false) lines.

(** The line is a row whose record has a non-empty [image_path]. *)
Definition has_image_path (json_loads : string -> option json) (line : string) : bool :=
  negb (str_empty (strip line))
  && match json_loads (strip line) with
     | Some (JObj m) => truthy (default JNull (m !! "image_path"))
     | _ => false
     end.

(** The record emitted for a row whose image file is missing. *)
Definition not_found_record (m : gmap string json) : json :=
  JObj (<["error" := JStr "image_not_found"]> (<["pred_text" := JNull]> m)).

(** The record emitted for a row that was captioned. *)
Definition captioned_record (m : gmap string json) (pred : string) : json :=
  JObj (<["error" := JNull]> (<["pred_text" := JStr pred]> m)).

(** What one line of the input file leads to in the loop of lines 72-91. *)
Inductive outcome :=
| Skipped                  (* blank line, or no [image_path]: [continue] *)
| NotFound (r : json)      (* the error record is appended *)
| Captioned (r : json)     (* the captioned record is appended, [n += 1] *)
| Failed (e : exn).        (* an exception escapes the loop *)

Definition line_outcome (json_loads : string -> option json)
  (caption : string -> result string) (fs : filesystem) (line : string) : outcome :=
  if str_empty (strip line) then Skipped
  else
    match json_loads (strip line) with
    | None => Failed JSONDecodeError
    | Some (JObj m) =>
        match default JNull (m !! "image_path") with
        | JStr s =>
            if String.eqb s "" then Skipped
            else if path_exists fs s then
              match caption s with
              | Ok pred => Captioned (captioned_record m pred)
              | Raise e => Failed e
              end
            else NotFound (not_found_record m)
        | v => if truthy v then Failed TypeError else Skipped
        end
    | Some _ => Failed AttributeError
    end.

End Predict.

(* ===================================================================== *)
(** ** src/evaluate.py *)
(* ===================================================================== *)

Module Evaluate.

Record Args := {
  preds : string;        (* [--preds] *)
  out_metrics : string;
  out_samples : string;
  max_samples : Z
}.

Section WithMetrics.
Variable json_loads : string -> option json.
Variable py_str : json -> string.
(** The metric values; the libraries computing them are collaborators. *)
Variable score : Type.
(** [bleu.compute(predictions=preds, references=[[r] for r in refs])["score"]] *)
Variable sacrebleu : list string -> list (list string) -> result score.
(** [rouge.compute(predictions=preds, references=refs)] with its four keys *)
Variable rouge : list string -> list string -> result (score * score * score * score).
Variable fs : filesystem.

Record metrics := {
  m_sacrebleu : score;
  m_rouge1 : score;
  m_rouge2 : score;
  m_rougeL : score;
  m_rougeLsum : score;
  m_n : Z
}.

Definition loads (line : string) : result json :=
  match json_loads line with
  | Some v => Ok v
  | None => Raise JSONDecodeError
  end.

Definition compute_metrics (preds refs : list string) : result metrics :=
  bleu_res ← sacrebleu preds ((fun r => [r]) <$> refs);
  rouge_res ← rouge preds refs;
  let '(r1, r2, rL, rLsum) := rouge_res in
  Ok {| m_sacrebleu := bleu_res;
        m_rouge1 := r1; m_rouge2 := r2; m_rougeL := rL; m_rougeLsum := rLsum;
        m_n := Z.of_nat (length preds) |}.

Record collected := {
  c_preds : list string;
  c_refs : list string;
  c_samples : list (json * string * string)
}.

(** Lines 73-83: the loop over [iter_jsonl(preds_path)]. *)
Fixpoint collect (lines : list string) (acc : collected) : result collected :=
  match lines with
  | [] => Ok acc
  | line :: rest =>
      let line := strip line in
      if str_empty line then collect rest acc
      else
        row ← loads line;
        err ← dict_get row "error";
        if negb (is_None err) then collect rest acc
        else
          ref ← dict_get row "text";
          pred ← dict_get row "pred_text";
          img ← dict_get_default row "image_path" (JStr "");
          if negb (truthy ref) || negb (truthy pred) then collect rest acc
          else
            collect rest
              {| c_refs := c_refs acc ++ [py_str ref];
                 c_preds := c_preds acc ++ [py_str pred];
                 c_samples := c_samples acc ++ [(img, py_str ref, py_str pred)] |}
  end.

(** [main]: the metrics report and the samples listed in the other report. *)
Definition main (args : Args) : result (metrics * list (json * string * string)) :=
  match fs (preds args) with
  | None => Raise FileNotFoundError
  | Some lines =>
      acc ← collect lines {| c_preds := []; c_refs := []; c_samples := [] |};
      m ← compute_metrics (c_preds acc) (c_refs acc);
      Ok (m, slice_to (c_samples acc) (max_samples args))
  end.

(** *** Error rows and valid pairs, in the words of the specification *)

(** A row is an error row when its [error] field is set. *)
Definition error_row (m : gmap string json) : bool :=
  negb (is_None (default JNull (m !! "error"))).

(** A row carries a valid (reference, prediction) pair when both [text] and
    [pred_text] are present and non-empty. *)
Definition valid_pair (m : gmap string json) : bool :=
  truthy (default JNull (m !! "text")) && truthy (default JNull (m !! "pred_text")).

Definition counted (m : gmap string json) : bool :=
  negb (error_row m) && valid_pair m.

(** The counted rows of a file, and what line 81-83 take from each. *)
Definition counted_rows (objs : list (gmap string json)) : list (gmap string json) :=
  filter (fun m => counted m = true) objs.

Definition reference (m : gmap string json) : string :=
  py_str (default JNull (m !! "text")).

Definition prediction (m : gmap string json) : string :=
  py_str (default JNull (m !! "pred_text")).

Definition sample (m : gmap string json) : json * string * string :=
  (default (JStr "") (m !! "image_path"), reference m, prediction m).

End WithMetrics.

End Evaluate.


(* ===================================================================== *)
(** ** src/model_wrapper.py *)
(* ===================================================================== *)

Module ModelWrapper.
Import Config.

(** The attributes [__init__] takes from the probe. *)
Record BlipCaptioner := {
  device : Config.device;
  amp_dtype : Config.dtype
}.

(** [BlipCaptioner(model_name)]: lines 14-21, the model itself left out. *)
Definition init (p : probe) : BlipCaptioner :=
  let '(d, t) := pick_device p in
  {| device := d; amp_dtype := t |}.

(** Line 34: [self.device in {"cuda", "mps"} and self.amp_dtype == torch.float16] *)
Definition use_amp (self : BlipCaptioner) : bool :=
  (bool_decide (device self = cuda) || bool_decide (device self = mps))
  && bool_decide (amp_dtype self = float16).

Section Caption.
Variables image tokens : Type.
(** [Image.open(image_path).convert("RGB")] *)
Variable open_rgb : string -> result image.
(** [self.model.generate] on the processed image with [max_new_tokens] and
    [num_beams], inside [torch.autocast] or not. *)
Variable generate : bool -> image -> Z -> Z -> result tokens.
(** [self.processor.decode(out[0], skip_special_tokens=True)] *)
Variable decode : tokens -> string.

Definition caption (self : BlipCaptioner) (image_path : string)
  (max_new_tokens num_beams : Z) : result string :=
  img ← open_rgb image_path;
  out ← generate (use_amp self) img max_new_tokens num_beams;
  Ok (strip (decode out)).

End Caption.

End ModelWrapper.

(* ===================================================================== *)
(** ** Counting and windows *)
(* ===================================================================== *)

(** How many elements of [l] satisfy [p]. *)
Fixpoint countb {A} (p : A -> bool) (l : list A) : nat :=
  match l with
  | [] => 0
  | x :: rest => (if p x then 1 else 0) + countb p rest
  end.

(** The [K] consecutive elements of [l] that start at position [i]. *)
Definition window {A} (i K : nat) (l : list A) : list A := take K (drop i l).

(** The micro-batch events recorded in the log of a training run. *)
Fixpoint micro_batches (log : list TrainLora.action) : list TrainLora.event :=
  match log with
  | [] => []
  | TrainLora.MicroBatch ev :: rest => ev :: micro_batches rest
  | _ :: rest => micro_batches rest
  end.

(** *** The accumulation boundary, in the words of the specification *)

(** The micro-batch that starts with counter [j] is an accumulation boundary
    when it is the [K]-th, [2K]-th, ... micro-batch of the run. *)
Definition is_boundary (K j : Z) : bool := ((j + 1) mod K =? 0)%Z.

(** What the [j]-th micro-batch should do. *)
Definition expected_event (finite : Z -> bool) (K j : Z) : TrainLora.event :=
  {| TrainLora.ev_step := j;
     TrainLora.ev_optim := is_boundary K j && finite j;
     TrainLora.ev_sched := is_boundary K j |}.

Definition expected_trace (finite : Z -> bool) (K : Z) (n : nat) : list TrainLora.event :=
  (fun j => expected_event finite K (Z.of_nat j)) <$> seq 0 n.

(** The step budget: the smaller of the configured cap and
    [steps_per_epoch × epochs]. *)
Definition spec_total_steps (max_steps steps_per_epoch n_epochs : Z) : Z :=
  Z.min max_steps (steps_per_epoch * n_epochs).

(** The counters of a state agree with the events it has recorded. *)
Definition tracked (finite : Z -> bool) (K : Z) (st : TrainLora.state) : Prop :=
  (0 <= TrainLora.step st)%Z
  /\ TrainLora.trace st = expected_trace finite K (Z.to_nat (TrainLora.step st))
  /\ TrainLora.optim_updates st
     = Z.of_nat (countb TrainLora.ev_optim (TrainLora.trace st))
  /\ TrainLora.sched_pos st
     = Z.of_nat (countb TrainLora.ev_sched (TrainLora.trace st)).

(** The loop may take another micro-batch: nothing was processed yet, or the
    counter is still below the budget. *)
Definition may_continue (total : Z) (st : TrainLora.state) : Prop :=
  TrainLora.step st = 0%Z \/ (TrainLora.step st < total)%Z.

(* ===================================================================== *)
(** ** A small concrete installation

    A parser that knows a handful of lines, a file system with a training
    file, a predictions file and two images, and collaborators that always
    answer.  The examples and the instances below run the definitions on
    it. *)
(* ===================================================================== *)

Module Fixture.
Import Config Dataset.

Definition obj (kvs : list (string * json)) : json := JObj (list_to_map kvs).

Definition fx_loads (line : string) : option json :=
  match line with
  | "shoe" => Some (obj [("image_path", JStr "shoe.jpg"); ("text", JStr "red shoe")])
  | "bag" => Some (obj [("image_path", JStr "bag.jpg"); ("text", JStr "leather bag")])
  | "hat" => Some (obj [("image_path", JStr "hat.jpg"); ("text", JStr "straw hat")])
  | "no_text" => Some (obj [("image_path", JStr "sock.jpg")])
  | "no_image" => Some (obj [("text", JStr "blue scarf")])
  | "empty_image" => Some (obj [("image_path", JStr ""); ("text", JStr "belt")])
  | "p_shoe" =>
      Some (obj [("image_path", JStr "shoe.jpg"); ("text", JStr "red shoe");
                 ("pred_text", JStr "a red shoe"); ("error", JNull)])
  | "p_hat" =>
      Some (obj [("image_path", JStr "hat.jpg"); ("text", JStr "straw hat");
                 ("pred_text", JNull); ("error", JStr "image_not_found")])
  | "p_bag" =>
      Some (obj [("image_path", JStr "bag.jpg"); ("text", JStr "leather bag");
                 ("pred_text", JStr "a bag"); ("error", JNull)])
  | "number" => Some (JInt 7)
  | _ => None
  end.

Definition fx_str (v : json) : string :=
  match v with
  | JStr s => s
  | _ => "?"
  end.

(** Three valid rows, two malformed ones and a blank line. *)
Definition train_lines : list string :=
  ["shoe "; "no_text"; "  bag"; "   "; "no_image"; "hat"].

(** [hat.jpg] is not on disk. *)
Definition infer_lines : list string :=
  ["hat"; "shoe"; "no_image"; "bag"].

Definition preds_lines : list string :=
  ["p_shoe"; "p_hat"; ""; "p_bag"].

(** The records behind [train_lines]. *)
Definition train_records : list (gmap string json) :=
  [list_to_map [("image_path", JStr "shoe.jpg"); ("text", JStr "red shoe")];
   list_to_map [("image_path", JStr "sock.jpg")];
   list_to_map [("image_path", JStr "bag.jpg"); ("text", JStr "leather bag")];
   list_to_map [("text", JStr "blue scarf")];
   list_to_map [("image_path", JStr "hat.jpg"); ("text", JStr "straw hat")]].

Definition fx_fs : filesystem := fun path =>
  match path with
  | "train.jsonl" => Some train_lines
  | "infer.jsonl" => Some infer_lines
  | "preds.jsonl" => Some preds_lines
  | "broken.jsonl" => Some ["shoe"; "{oops"]
  | "mixed.jsonl" => Some ["shoe"; "number"]
  | "shoe.jpg" | "bag.jpg" => Some []
  | _ => None
  end.

Definition fx_caption (path : string) : result string := Ok ("a photo of " +:+ path).

(** A captioner that cannot read any image. *)
Definition fx_failing_caption (path : string) : result string :=
  Raise (LibraryError "cannot identify image file").

(** Batches of [bs] consecutive samples, the last one possibly shorter.  A
    shuffling loader cannot be built over an empty data set. *)
Definition fx_DataLoader (ds : list Sample) (bs : Z) : result TrainLora.loader :=
  if bool_decide (length ds = 0%nat)
  then Raise (LibraryError "num_samples should be a positive integer value")
  else if (bs <=? 0)%Z
  then Raise (LibraryError "batch_size should be a positive integer value")
  else
    Ok {| TrainLora.loader_len := Z.to_nat ((Z.of_nat (length ds) + bs - 1) / bs);
          TrainLora.loader_draw := fun _ i => take (Z.to_nat bs) (drop (i * Z.to_nat bs) ds) |}.

Definition fx_collate (b : list Sample) : result unit := Ok tt.

Definition fx_finite (step : Z) : bool := true.

Definition fx_load_image (path : string) : result unit :=
  if path_exists fx_fs path then Ok tt else Raise FileNotFoundError.

(** The image reader of the captioner, and a model whose decoded output
    carries blanks around the text. *)
Definition fx_open_rgb (path : string) : result unit := fx_load_image path.

Definition fx_generate (amp : bool) (img : unit) (max_new_tokens num_beams : Z)
  : result string := Ok "  a shoe  ".

(** A tokenizer that records the length of each text. *)
Definition fx_processor (images : list unit) (texts : list string)
  : result (TrainLora.encoding (list Z)) :=
  Ok {| TrainLora.enc_pixel_values := [];
        TrainLora.enc_input_ids := (fun t => Z.of_nat (String.length t)) <$> texts;
        TrainLora.enc_attention_mask := (fun _ => 1%Z) <$> texts |}.

Definition fx_batch : list Sample :=
  [ {| image_path := "shoe.jpg"; text := "red shoe" |};
    {| image_path := "bag.jpg"; text := "leather bag" |} ].

Definition fx_enc : TrainLora.encoding (list Z) :=
  {| TrainLora.enc_pixel_values := [];
     TrainLora.enc_input_ids := [8; 11]%Z;
     TrainLora.enc_attention_mask := [1; 1]%Z |}.

Definition fx_probe_gpu : probe := {| cuda_is_available := true; mps_is_available := false |}.
Definition fx_probe_mps : probe := {| cuda_is_available := false; mps_is_available := true |}.
Definition fx_probe_cpu : probe := {| cuda_is_available := false; mps_is_available := false |}.

Definition fx_train_args : TrainLora.Args :=
  {| TrainLora.train_jsonl := "train.jsonl";
     TrainLora.batch_size := 1;
     TrainLora.grad_accum := 2;
     TrainLora.epochs := 3;
     TrainLora.warmup_steps := 200;
     TrainLora.max_train_steps := 2 |}.

(** Three batches per epoch, groups of two, six epochs: a budget of six. *)
Definition fx_accum_args : TrainLora.Args :=
  {| TrainLora.train_jsonl := "train.jsonl";
     TrainLora.batch_size := 1;
     TrainLora.grad_accum := 2;
     TrainLora.epochs := 6;
     TrainLora.warmup_steps := 200;
     TrainLora.max_train_steps := 2000 |}.

(** A step cap of zero. *)
Definition fx_zero_budget_args : TrainLora.Args :=
  {| TrainLora.train_jsonl := "train.jsonl";
     TrainLora.batch_size := 1;
     TrainLora.grad_accum := 2;
     TrainLora.epochs := 3;
     TrainLora.warmup_steps := 200;
     TrainLora.max_train_steps := 0 |}.

(** No accumulation count. *)
Definition fx_zero_accum_args : TrainLora.Args :=
  {| TrainLora.train_jsonl := "train.jsonl";
     TrainLora.batch_size := 1;
     TrainLora.grad_accum := 0;
     TrainLora.epochs := 3;
     TrainLora.warmup_steps := 200;
     TrainLora.max_train_steps := 2000 |}.

Definition fx_train_main (args : TrainLora.Args) (p : probe) :=
  TrainLora.main fx_loads fx_str fx_DataLoader unit fx_collate fx_finite args p fx_fs.

Definition fx_predict_args (lim : Z) : Predict.Args :=
  {| Predict.image := None; Predict.jsonl := Some "infer.jsonl";
     Predict.limit := lim; Predict.out := "preds.jsonl" |}.

Definition fx_eval_args : Evaluate.Args :=
  {| Evaluate.preds := "preds.jsonl"; Evaluate.out_metrics := "metrics.json";
     Evaluate.out_samples := "samples.md"; Evaluate.max_samples := 50 |}.

Definition fx_bleu (preds : list string) (refs : list (list string)) : result Z := Ok 0%Z.
Definition fx_rouge (preds refs : list string) : result (Z * Z * Z * Z) := Ok (0, 0, 0, 0)%Z.

End Fixture.


(* ===================================================================== *)
(** * Properties *)
(* ===================================================================== *)

Local Open Scope Z_scope.

(** ** Generic facts *)

Lemma countb_app {A} (p : A -> bool) (l1 l2 : list A) :
  countb p (l1 ++ l2) = (countb p l1 + countb p l2)%nat.
Proof.
  induction l1 as [|x l1 IH]; simpl; [done|].
  rewrite IH. lia.
Qed.

Lemma countb_fmap {A B} (p : B -> bool) (f : A -> B) (l : list A) :
  countb p (f <$> l) = countb (fun x => p (f x)) l.
Proof. induction l as [|x l IH]; csimpl; [done|]. by rewrite IH. Qed.

Lemma countb_ext {A} (p q : A -> bool) (l : list A) :
  (forall x, x ∈ l -> p x = q x) -> countb p l = countb q l.
Proof.
  induction l as [|x l IH]; intros H; simpl; [done|].
  rewrite (H x) by set_solver. rewrite IH; [done|].
  intros y Hy. apply H. set_solver.
Qed.

Lemma countb_none {A} (p : A -> bool) (l : list A) :
  (forall x, x ∈ l -> p x = false) -> countb p l = 0%nat.
Proof.
  induction l as [|x l IH]; intros H; simpl; [done|].
  rewrite (H x) by set_solver. rewrite IH; [done|].
  intros y Hy. apply H. set_solver.
Qed.

Lemma countb_le_length {A} (p : A -> bool) (l : list A) :
  (countb p l <= length l)%nat.
Proof. induction l as [|x l IH]; simpl; [lia|]. destruct (p x); lia. Qed.

Lemma countb_filter_length {A} (p : A -> bool) (l : list A) :
  countb p l = length (filter (fun x => p x = true) l).
Proof.
  induction l as [|x l IH]; simpl; [done|].
  rewrite filter_cons. destruct (p x) eqn:E.
  - rewrite decide_True by done. simpl. by rewrite IH.
  - rewrite decide_False by congruence. by rewrite IH.
Qed.

Lemma countb_split {A} (p : A -> bool) (l : list A) :
  (countb p l + countb (fun x => negb (p x)) l = length l)%nat.
Proof. induction l as [|x l IH]; simpl; [done|]. destruct (p x); simpl; lia. Qed.

(** ** src/dataset.py: the Sample Store *)

Section DatasetFacts.
Import Dataset.
Variable json_loads : string -> option json.
Variable py_str : json -> string.

Lemma load_jsonl_lines_records lines objs rows :
  records_of_lines json_loads lines = Some objs ->
  load_jsonl_lines json_loads lines rows = Ok (rows ++ (JObj <$> objs)).
Proof.
  revert objs rows. induction lines as [|line rest IH]; intros objs rows; simpl.
  - intros [= <-]. by rewrite app_nil_r.
  - destruct (str_empty (strip line)); [by apply IH|].
    unfold loads.
    destruct (json_loads (strip line)) as [[| | | | | |m]|]; try done.
    destruct (records_of_lines json_loads rest) as [ms|] eqn:E; [|done].
    intros [= <-]. simpl.
    rewrite (IH ms); [|done].
    by rewrite <- app_assoc.
Qed.

Lemma valid_record_truthy (m : gmap string json) :
  valid_record m =
  truthy (default JNull (m !! "image_path")) && truthy (default JNull (m !! "text")).
Proof.
  unfold valid_record, field_nonempty.
  destruct (m !! "image_path"), (m !! "text"); simpl; by rewrite ?andb_false_r.
Qed.

Lemma keep_valid_records objs clean :
  keep_valid py_str (JObj <$> objs) clean = Ok (clean ++ spec_store py_str objs).
Proof.
  revert clean. induction objs as [|m objs IH]; intros clean.
  - unfold spec_store. simpl. by rewrite app_nil_r.
  - unfold spec_store. rewrite filter_cons. csimpl.
    rewrite <- negb_andb, <- valid_record_truthy.
    destruct (valid_record m) eqn:E; simpl.
    + rewrite IH. by rewrite <- app_assoc.
    + by rewrite IH.
Qed.

Lemma dataset_of_records fs path lines objs :
  fs path = Some lines ->
  records_of_lines json_loads lines = Some objs ->
  ProductCaptionDataset json_loads py_str fs path = Ok (spec_store py_str objs).
Proof.
  intros Hfs Hrec. unfold ProductCaptionDataset, load_jsonl, open_read.
  rewrite Hfs. simpl.
  rewrite (load_jsonl_lines_records _ objs) by done. simpl.
  apply keep_valid_records.
Qed.

Lemma spec_store_length objs :
  length (spec_store py_str objs) = countb valid_record objs.
Proof.
  unfold spec_store. by rewrite length_fmap, countb_filter_length.
Qed.

(** For a string field, "non-empty" is the plain meaning. *)
Lemma field_nonempty_str (m : gmap string json) key s :
  m !! key = Some (JStr s) ->
  field_nonempty m key = true <-> s <> "".
Proof.
  intros H. unfold field_nonempty. rewrite H. simpl.
  destruct (String.eqb_spec s ""); simpl; split; congruence.
Qed.

Lemma field_nonempty_missing (m : gmap string json) key :
  m !! key = None -> field_nonempty m key = false.
Proof. intros H. unfold field_nonempty. by rewrite H. Qed.

End DatasetFacts.

(** C4. For every input file whose non-empty lines carry one record each,
    the loaded Sample Store holds exactly one Sample for each record with a
    non-empty [image_path] and a non-empty [text], in the order of the
    lines, and none for the other records; its length is the number of
    valid records, so 3 valid rows and 2 malformed ones give length 3. *)
Theorem sample_store_valid_rows_in_order
  (json_loads : string -> option json) (py_str : json -> string)
  (fs : filesystem) (path : string)
  (lines : list string) (objs : list (gmap string json)) :
  fs path = Some lines ->
  Dataset.records_of_lines json_loads lines = Some objs ->
  exists ds,
    Dataset.ProductCaptionDataset json_loads py_str fs path = Ok ds
    /\ ds = Dataset.sample_of_record py_str
              <$> filter (fun m => Dataset.valid_record m = true) objs
    /\ length ds = countb Dataset.valid_record objs
    /\ (countb Dataset.valid_record objs = 3%nat ->
        countb (fun m => negb (Dataset.valid_record m)) objs = 2%nat ->
        length objs = 5%nat /\ Dataset.ds_len ds = 3).
Proof.
  intros Hfs Hrec. exists (Dataset.spec_store py_str objs).
  split; [by apply dataset_of_records with lines|].
  split; [done|].
  split; [apply spec_store_length|].
  intros H3 H2. split.
  - rewrite <- (countb_split Dataset.valid_record objs). lia.
  - unfold Dataset.ds_len. rewrite spec_store_length. lia.
Qed.

Lemma sample_store_valid_rows_in_order_witness :
  Fixture.fx_fs "train.jsonl" = Some Fixture.train_lines
  /\ Dataset.records_of_lines Fixture.fx_loads Fixture.train_lines
     = Some Fixture.train_records
  /\ exists ds,
       Dataset.ProductCaptionDataset Fixture.fx_loads Fixture.fx_str Fixture.fx_fs
         "train.jsonl" = Ok ds
       /\ ds = Dataset.sample_of_record Fixture.fx_str
                 <$> filter (fun m => Dataset.valid_record m = true) Fixture.train_records
       /\ length ds = countb Dataset.valid_record Fixture.train_records
       /\ (countb Dataset.valid_record Fixture.train_records = 3%nat ->
           countb (fun m => negb (Dataset.valid_record m)) Fixture.train_records = 2%nat ->
           length Fixture.train_records = 5%nat /\ Dataset.ds_len ds = 3).
Proof.
  split; [reflexivity|]. split; [vm_compute; reflexivity|].
  apply (sample_store_valid_rows_in_order Fixture.fx_loads Fixture.fx_str
           Fixture.fx_fs "train.jsonl" Fixture.train_lines Fixture.train_records).
  - reflexivity.
  - vm_compute. reflexivity.
Defined.

(** Scenario A on the concrete training file: three samples, in line order. *)
Example scenario_A :
  Dataset.ProductCaptionDataset Fixture.fx_loads Fixture.fx_str Fixture.fx_fs "train.jsonl"
  = Ok [ {| Dataset.image_path := "shoe.jpg"; Dataset.text := "red shoe" |};
         {| Dataset.image_path := "bag.jpg"; Dataset.text := "leather bag" |};
         {| Dataset.image_path := "hat.jpg"; Dataset.text := "straw hat" |} ].
Proof. vm_compute. reflexivity. Qed.

Lemma keep_valid_not_object py_str rows clean :
  (exists r, r ∈ rows /\ forall m, r <> JObj m) ->
  Dataset.keep_valid py_str rows clean = Raise AttributeError.
Proof.
  revert clean. induction rows as [|r rows IH]; intros clean [bad [Hin Hbad]].
  - by apply elem_of_nil in Hin.
  - destruct r as [| | | | | |m]; try done. simpl.
    apply elem_of_cons in Hin as [->|Hin]; [by destruct (Hbad m)|].
    destruct (negb _ || negb _); apply IH; by exists bad.
Qed.

Section IngestionFailures.
Import Dataset.
Variable json_loads : string -> option json.
Variable py_str : json -> string.




End IngestionFailures.




(** The same failure, seen on the loader alone. *)
Example not_json_raises :
  Dataset.ProductCaptionDataset Fixture.fx_loads Fixture.fx_str Fixture.fx_fs "broken.jsonl"
  = Raise JSONDecodeError.
Proof. vm_compute. reflexivity. Qed.

(** ** src/train_lora.py: the collator *)

Section CollatorFacts.
Import Dataset TrainLora.
Context {image tensor : Type}.
Variable load_image_rgb : string -> result image.
Variable processor : list image -> list string -> result (encoding tensor).

Lemma alloc_spec (t : tensor) (σ : store tensor) :
  let l := fst (alloc tensor t σ) in
  σ !! l = None /\ snd (alloc tensor t σ) = <[l := t]> σ.
Proof.
  simpl. split; [|done].
  apply not_elem_of_dom_1, is_fresh.
Qed.

Lemma inplace_other (f : tensor -> tensor) (l l' : nat) (σ : store tensor) :
  l <> l' -> inplace tensor f l σ !! l' = σ !! l'.
Proof. intros. unfold inplace. by rewrite lookup_alter_ne. Qed.

Lemma inplace_same (f : tensor -> tensor) (l : nat) (σ : store tensor) :
  inplace tensor f l σ !! l = f <$> σ !! l.
Proof. unfold inplace. by rewrite lookup_alter_eq. Qed.

Lemma collate_returns batch σ images enc :
  list_comp (fun s => load_image_rgb (image_path s)) batch = Ok images ->
  processor images (text <$> batch) = Ok enc ->
  exists inputs σ' l_ids l_lab,
    BlipCollator_call image tensor load_image_rgb processor batch σ = Ok (inputs, σ')
    /\ inputs !! "input_ids" = Some l_ids
    /\ inputs !! "labels" = Some l_lab
    /\ l_ids <> l_lab
    /\ σ' !! l_ids = Some (enc_input_ids tensor enc)
    /\ σ' !! l_lab = Some (enc_input_ids tensor enc).
Proof.
  intros Himg Henc. unfold BlipCollator_call.
  rewrite Himg. simpl. rewrite Henc. simpl.
  unfold alloc.
  set (l1 := fresh (dom σ)).
  set (σ1 := <[l1 := enc_pixel_values tensor enc]> σ).
  set (l2 := fresh (dom σ1)).
  set (σ2 := <[l2 := enc_input_ids tensor enc]> σ1).
  set (l3 := fresh (dom σ2)).
  set (σ3 := <[l3 := enc_attention_mask tensor enc]> σ2).
  assert (H3 : σ2 !! l3 = None) by apply not_elem_of_dom_1, is_fresh.
  assert (H2 : σ2 !! l2 = Some (enc_input_ids tensor enc)) by apply lookup_insert_eq.
  assert (Hne32 : l3 <> l2) by congruence.
  assert (H32 : σ3 !! l2 = Some (enc_input_ids tensor enc)).
  { unfold σ3. by rewrite lookup_insert_ne. }
  unfold getitem. rewrite lookup_insert_ne by done. rewrite lookup_insert_eq.
  simpl. unfold clone. rewrite H32. simpl. unfold alloc.
  set (l4 := fresh (dom σ3)).
  assert (H4 : σ3 !! l4 = None) by apply not_elem_of_dom_1, is_fresh.
  assert (Hne : l2 <> l4) by congruence.
  eexists _, _, l2, l4. split; [reflexivity|].
  split. { rewrite lookup_insert_ne by done. rewrite lookup_insert_ne by done. apply lookup_insert_eq. }
  split. { apply lookup_insert_eq. }
  split; [done|].
  split. { by rewrite lookup_insert_ne. }
  apply lookup_insert_eq.
Qed.

End CollatorFacts.

(** C3. Whenever the images of a batch load and the processor encodes them,
    the collator returns a batch whose [labels] tensor has the content of
    its [input_ids] tensor and storage of its own: an in-place operation on
    either of the two changes that one and leaves the other as it was. *)
Theorem collator_labels_decoupled_copy
  (image tensor : Type)
  (load_image_rgb : string -> result image)
  (processor : list image -> list string -> result (TrainLora.encoding tensor))
  (batch : list Dataset.Sample) (σ : gmap nat tensor)
  (images : list image) (enc : TrainLora.encoding tensor) :
  list_comp (fun s => load_image_rgb (Dataset.image_path s)) batch = Ok images ->
  processor images (Dataset.text <$> batch) = Ok enc ->
  exists inputs σ' l_ids l_lab ids,
    TrainLora.BlipCollator_call image tensor load_image_rgb processor batch σ
    = Ok (inputs, σ')
    /\ ids = TrainLora.enc_input_ids tensor enc
    /\ inputs !! "input_ids" = Some l_ids
    /\ inputs !! "labels" = Some l_lab
    /\ l_ids <> l_lab
    /\ TrainLora.deref tensor inputs σ' "input_ids" = Some ids
    /\ TrainLora.deref tensor inputs σ' "labels" = Some ids
    /\ forall f : tensor -> tensor,
         TrainLora.deref tensor inputs (TrainLora.inplace tensor f l_lab σ') "labels"
         = Some (f ids)
         /\ TrainLora.deref tensor inputs (TrainLora.inplace tensor f l_lab σ') "input_ids"
            = Some ids
         /\ TrainLora.deref tensor inputs (TrainLora.inplace tensor f l_ids σ') "input_ids"
            = Some (f ids)
         /\ TrainLora.deref tensor inputs (TrainLora.inplace tensor f l_ids σ') "labels"
            = Some ids.
Proof.
  intros Himg Henc.
  destruct (collate_returns load_image_rgb processor batch σ images enc Himg Henc)
    as (inputs & σ' & l_ids & l_lab & Hcall & Hi & Hl & Hne & Hsi & Hsl).
  exists inputs, σ', l_ids, l_lab, (TrainLora.enc_input_ids tensor enc).
  unfold TrainLora.deref. rewrite Hi, Hl. simpl.
  repeat split; try done.
  - rewrite inplace_same. by rewrite Hsl.
  - by rewrite inplace_other.
  - rewrite inplace_same. by rewrite Hsi.
  - by rewrite inplace_other.
Qed.

Lemma collator_labels_decoupled_copy_witness :
  list_comp (fun s => Fixture.fx_load_image (Dataset.image_path s)) Fixture.fx_batch
  = Ok [tt; tt]
  /\ Fixture.fx_processor [tt; tt] (Dataset.text <$> Fixture.fx_batch) = Ok Fixture.fx_enc
  /\ exists inputs σ' l_ids l_lab ids,
       TrainLora.BlipCollator_call unit (list Z) Fixture.fx_load_image
         Fixture.fx_processor Fixture.fx_batch ∅ = Ok (inputs, σ')
       /\ ids = [8; 11]
       /\ inputs !! "input_ids" = Some l_ids
       /\ inputs !! "labels" = Some l_lab
       /\ l_ids <> l_lab
       /\ TrainLora.deref (list Z) inputs σ' "input_ids" = Some ids
       /\ TrainLora.deref (list Z) inputs σ' "labels" = Some ids
       /\ forall f : list Z -> list Z,
            TrainLora.deref (list Z) inputs (TrainLora.inplace (list Z) f l_lab σ') "labels"
            = Some (f ids)
            /\ TrainLora.deref (list Z) inputs
                 (TrainLora.inplace (list Z) f l_lab σ') "input_ids" = Some ids
            /\ TrainLora.deref (list Z) inputs
                 (TrainLora.inplace (list Z) f l_ids σ') "input_ids" = Some (f ids)
            /\ TrainLora.deref (list Z) inputs
                 (TrainLora.inplace (list Z) f l_ids σ') "labels" = Some ids.
Proof.
  split; [reflexivity|]. split; [reflexivity|].
  apply (collator_labels_decoupled_copy unit (list Z) Fixture.fx_load_image
           Fixture.fx_processor Fixture.fx_batch ∅ [tt; tt] Fixture.fx_enc); reflexivity.
Defined.

(** ** src/train_lora.py: the training loop *)

(** Among [K] consecutive counter values exactly one is a boundary. *)
Lemma boundary_between (K q x : Z) :
  0 < K -> K * q < x + 1 < K * (q + 1) -> is_boundary K x = false.
Proof.
  intros HK Hx. unfold is_boundary. apply Z.eqb_neq. intros Hmod.
  pose proof (Z.div_mod (x + 1) K ltac:(lia)) as Hdm.
  rewrite Hmod, Z.add_0_r in Hdm.
  set (d := (x + 1) / K) in *.
  assert (q < d) by nia. assert (d < q + 1) by nia. lia.
Qed.

Lemma boundary_at (K q x : Z) :
  0 < K -> x + 1 = K * q -> is_boundary K x = true.
Proof.
  intros HK Hx. unfold is_boundary. apply Z.eqb_eq.
  rewrite Hx, Z.mul_comm. apply Z.mod_mul. lia.
Qed.

Lemma one_boundary_per_window (K : Z) (i : nat) :
  0 < K ->
  countb (fun j => is_boundary K (Z.of_nat j)) (seq i (Z.to_nat K)) = 1%nat.
Proof.
  intros HK.
  pose proof (Z.div_mod (Z.of_nat i) K ltac:(lia)) as Hdm.
  pose proof (Z.mod_pos_bound (Z.of_nat i) K HK) as Hm.
  set (q := Z.of_nat i / K) in *. set (m := Z.of_nat i mod K) in *.
  (* the boundary sits [K - 1 - m] places into the window *)
  set (a := Z.to_nat (K - 1 - m)).
  replace (Z.to_nat K) with (a + S (Z.to_nat m))%nat by (unfold a; lia).
  rewrite seq_app. simpl. rewrite countb_app. simpl.
  rewrite (countb_none _ (seq i a)).
  2:{ intros j Hj. apply elem_of_seq in Hj.
      apply (boundary_between K q); [done|]. unfold a in Hj. nia. }
  rewrite (boundary_at K (q + 1)) by (unfold a; nia).
  rewrite (countb_none _ (seq _ (Z.to_nat m))); [done|].
  intros j Hj. apply elem_of_seq in Hj.
  apply (boundary_between K (q + 1)); [done|]. unfold a in Hj. nia.
Qed.

Lemma expected_trace_S finite K n :
  expected_trace finite K (S n)
  = expected_trace finite K n ++ [expected_event finite K (Z.of_nat n)].
Proof. unfold expected_trace. by rewrite seq_S, fmap_app. Qed.

Lemma expected_trace_length finite K n : length (expected_trace finite K n) = n.
Proof. unfold expected_trace. by rewrite length_fmap, length_seq. Qed.

Lemma expected_trace_lookup finite K n j ev :
  expected_trace finite K n !! j = Some ev ->
  ev = expected_event finite K (Z.of_nat j) /\ (j < n)%nat.
Proof.
  unfold expected_trace. rewrite list_lookup_fmap.
  destruct (seq 0 n !! j) as [k|] eqn:E; [|done].
  apply lookup_seq in E as [-> ?]. simpl. by intros [= <-].
Qed.

Lemma expected_trace_window finite K n i w :
  (i + w <= n)%nat ->
  window i w (expected_trace finite K n)
  = (fun j => expected_event finite K (Z.of_nat j)) <$> seq i w.
Proof.
  intros H. unfold window, expected_trace.
  rewrite <- fmap_drop, <- fmap_take, drop_seq, take_seq.
  do 2 f_equal. lia.
Qed.

Section LoopFacts.
Import Dataset TrainLora.
Variable batch : Type.
Variable collate : list Sample -> result batch.
Variable grads_finite : Z -> bool.
Variables K total : Z.

Lemma tracked_init : tracked grads_finite K init_state.
Proof. by repeat split. Qed.

Lemma micro_batch_step st : step (micro_batch grads_finite K st) = step st + 1.
Proof. done. Qed.

Lemma tracked_micro_batch st :
  tracked grads_finite K st -> tracked grads_finite K (micro_batch grads_finite K st).
Proof.
  intros (Hpos & Htr & Hopt & Hsch).
  unfold tracked, micro_batch. simpl.
  split; [lia|].
  replace (Z.to_nat (step st + 1)) with (S (Z.to_nat (step st))) by lia.
  rewrite expected_trace_S, Z2Nat.id by done.
  split; [by rewrite Htr|].
  rewrite !countb_app. simpl. fold (is_boundary K (step st)).
  rewrite Hopt, Hsch.
  split; [destruct (is_boundary K (step st) && grads_finite (step st))
         | destruct (is_boundary K (step st))]; lia.
Qed.

Lemma for_batches_cons b bs st :
  for_batches batch collate grads_finite K total (b :: bs) st
  = match collate b with
    | Raise e => (Raised e, st)
    | Ok _ =>
        if total <=? step st + 1 then (Broke, micro_batch grads_finite K st)
        else for_batches batch collate grads_finite K total bs (micro_batch grads_finite K st)
    end.
Proof. done. Qed.

Lemma for_epochs_cons ld e es st :
  for_epochs batch collate grads_finite K total ld (e :: es) st
  = match for_batches batch collate grads_finite K total (epoch_batches ld e) st with
    | (Raised x, st') => (Raised x, st')
    | (_, st') =>
        if total <=? step st' then (Broke, st')
        else for_epochs batch collate grads_finite K total ld es st'
    end.
Proof. done. Qed.

Lemma tracked_for_batches bs st :
  tracked grads_finite K st ->
  tracked grads_finite K (for_batches batch collate grads_finite K total bs st).2.
Proof.
  revert st. induction bs as [|b bs IH]; intros st Hst; [done|].
  rewrite for_batches_cons.
  destruct (collate b); [|done].
  destruct (total <=? step st + 1).
  - by apply tracked_micro_batch.
  - by apply IH, tracked_micro_batch.
Qed.

Lemma tracked_for_epochs ld es st :
  tracked grads_finite K st ->
  tracked grads_finite K (for_epochs batch collate grads_finite K total ld es st).2.
Proof.
  revert st. induction es as [|e es IH]; intros st Hst; [done|].
  rewrite for_epochs_cons.
  pose proof (tracked_for_batches (epoch_batches ld e) st Hst) as Hb.
  destruct (for_batches batch collate grads_finite K total (epoch_batches ld e) st)
    as [fl st']. simpl in Hb.
  destruct fl; try done; destruct (total <=? step st'); try done; by apply IH.
Qed.

(** The counter never runs past the budget, the first micro-batch apart. *)
Lemma for_batches_bound bs st fl st' :
  for_batches batch collate grads_finite K total bs st = (fl, st') ->
  may_continue total st ->
  step st' <= Z.max 1 total /\ (fl = Exhausted -> may_continue total st').
Proof.
  unfold may_continue.
  revert st. induction bs as [|b bs IH]; intros st.
  - intros [= <- <-] Hc. split; [lia|done].
  - rewrite for_batches_cons. destruct (collate b).
    + destruct (total <=? step st + 1) eqn:E.
      * intros [= <- <-] Hc. rewrite micro_batch_step. split; [lia|done].
      * intros Hrun Hc. apply Z.leb_gt in E.
        apply (IH _ Hrun). rewrite micro_batch_step. by right.
    + intros [= <- <-] Hc. split; [lia|done].
Qed.

Lemma for_epochs_bound ld es st fl st' :
  for_epochs batch collate grads_finite K total ld es st = (fl, st') ->
  may_continue total st ->
  step st' <= Z.max 1 total.
Proof.
  unfold may_continue.
  revert st. induction es as [|e es IH]; intros st.
  - intros [= <- <-] Hc. lia.
  - rewrite for_epochs_cons.
    destruct (for_batches batch collate grads_finite K total (epoch_batches ld e) st)
      as [fl1 st1] eqn:Eb.
    intros Hrun Hc.
    destruct (for_batches_bound _ _ _ _ Eb Hc) as [Hle Hex].
    destruct fl1.
    + destruct (total <=? step st1) eqn:E.
      * by injection Hrun as <- <-.
      * apply Z.leb_gt in E. apply (IH _ Hrun). by right.
    + destruct (total <=? step st1) eqn:E.
      * by injection Hrun as <- <-.
      * apply Z.leb_gt in E. apply (IH _ Hrun). by right.
    + by injection Hrun as <- <-.
Qed.

(** A run that does not raise stops exactly on the budget, or uses up its
    data below the budget. *)
Lemma for_batches_progress bs st fl st' :
  for_batches batch collate grads_finite K total bs st = (fl, st') ->
  step st < total ->
  (fl = Broke /\ step st' = total)
  \/ (fl = Exhausted /\ step st' = step st + Z.of_nat (length bs) /\ step st' < total)
  \/ (exists e, fl = Raised e).
Proof.
  revert st. induction bs as [|b bs IH]; intros st.
  - intros [= <- <-] Hlt. right; left. simpl. repeat split; [lia|done].
  - rewrite for_batches_cons. destruct (collate b).
    + destruct (total <=? step st + 1) eqn:E.
      * intros [= <- <-] Hlt. apply Z.leb_le in E. left.
        rewrite micro_batch_step. split; [done|lia].
      * intros Hrun Hlt. apply Z.leb_gt in E.
        destruct (IH _ Hrun) as [H|[(H1 & H2 & H3)|H]];
          [by rewrite micro_batch_step|by left| |by right; right].
        right; left. rewrite micro_batch_step in H2. simpl length.
        repeat split; [done|lia|done].
    + intros [= <- <-] Hlt. right; right. by eexists.
Qed.

Lemma for_epochs_progress ld es st fl st' :
  for_epochs batch collate grads_finite K total ld es st = (fl, st') ->
  step st < total ->
  step st' = total
  \/ (step st' = step st + Z.of_nat (loader_len ld) * Z.of_nat (length es)
      /\ step st' < total)
  \/ (exists e, fl = Raised e).
Proof.
  revert st. induction es as [|e es IH]; intros st.
  - intros [= <- <-] Hlt. right; left. simpl. split; [lia|done].
  - rewrite for_epochs_cons.
    destruct (for_batches batch collate grads_finite K total (epoch_batches ld e) st)
      as [fl1 st1] eqn:Eb.
    intros Hrun Hlt.
    destruct (for_batches_progress _ _ _ _ Eb Hlt) as [[-> H]|[(-> & H1 & H2)|[x ->]]].
    + rewrite H, Z.leb_refl in Hrun. injection Hrun as <- <-. by left.
    + assert (E : (total <=? step st1) = false) by by apply Z.leb_gt.
      rewrite E in Hrun.
      destruct (IH _ Hrun H2) as [H|[[H3 H4]|H]]; [by left| |by right; right].
      right; left. split; [|done].
      unfold epoch_batches in H1. rewrite length_fmap, length_seq in H1.
      simpl length. lia.
    + injection Hrun as <- <-. right; right. by eexists.
Qed.

End LoopFacts.

Lemma micro_batches_fmap tr : micro_batches (TrainLora.MicroBatch <$> tr) = tr.
Proof. induction tr as [|ev tr IH]; csimpl; [done|]. by rewrite IH. Qed.

Lemma micro_batches_app l1 l2 :
  micro_batches (l1 ++ l2) = micro_batches l1 ++ micro_batches l2.
Proof.
  induction l1 as [|a l1 IH]; simpl; [done|].
  destruct a; simpl; by rewrite IH.
Qed.

Section MainFacts.
Import Config Dataset TrainLora.
Variable json_loads : string -> option json.
Variable py_str : json -> string.
Variable DataLoader : list Sample -> Z -> result loader.
Variable batch : Type.
Variable collate : list Sample -> result batch.
Variable grads_finite : Z -> bool.

Local Abbreviation run_main := (main json_loads py_str DataLoader batch collate grads_finite).

(** How a run of [main] unfolds. *)
Lemma main_run args p fs log r :
  run_main args p fs = (log, r) ->
  (micro_batches log = [] /\ exists e, r = Raise e)
  \/ exists ds ld fl st,
       (pick_device p).1 = cuda
       /\ ProductCaptionDataset json_loads py_str fs (train_jsonl args) = Ok ds
       /\ DataLoader ds (batch_size args) = Ok ld
       /\ grad_accum args <> 0
       /\ for_epochs batch collate grads_finite (grad_accum args)
            (spec_total_steps (max_train_steps args)
               (Z.max 1 (Z.of_nat (loader_len ld) / grad_accum args)) (epochs args))
            ld (seq 0 (Z.to_nat (epochs args))) init_state = (fl, st)
       /\ micro_batches log = trace st
       /\ match fl with
          | Raised e => r = Raise e
          | _ =>
              r = Ok {| total_steps :=
                          spec_total_steps (max_train_steps args)
                            (Z.max 1 (Z.of_nat (loader_len ld) / grad_accum args))
                            (epochs args);
                        num_warmup_steps :=
                          Z.min (warmup_steps args)
                            (spec_total_steps (max_train_steps args)
                               (Z.max 1 (Z.of_nat (loader_len ld) / grad_accum args))
                               (epochs args) / 5);
                        num_training_steps :=
                          spec_total_steps (max_train_steps args)
                            (Z.max 1 (Z.of_nat (loader_len ld) / grad_accum args))
                            (epochs args);
                        final := st |}
          end.
Proof.
  unfold main, spec_total_steps.
  destruct (pick_device p) as [device amp_dtype] eqn:Edev. simpl.
  case_bool_decide as Hcuda; simpl.
  2:{ intros [= <- <-]. left. split; [done|by eexists]. }
  destruct (ProductCaptionDataset json_loads py_str fs (train_jsonl args)) as [ds|e] eqn:Eds.
  2:{ intros [= <- <-]. left. split; [done|by eexists]. }
  destruct (DataLoader ds (batch_size args)) as [ld|e] eqn:Eld.
  2:{ intros [= <- <-]. left. split; [done|by eexists]. }
  destruct (grad_accum args =? 0) eqn:EK.
  { intros [= <- <-]. left. split; [done|by eexists]. }
  apply Z.eqb_neq in EK.
  destruct (for_epochs _ _ _ _ _ _ _ _) as [fl st] eqn:Erun.
  intros Hout. right. exists ds, ld, fl, st.
  repeat (split; [done|]).
  destruct fl; injection Hout as <- <-.
  all: split; [|done].
  all: simpl; rewrite ?micro_batches_app, micro_batches_fmap; simpl.
  all: by rewrite ?app_nil_r.
Qed.

Lemma main_without_cuda args p fs :
  (pick_device p).1 <> cuda -> run_main args p fs = ([], Raise RuntimeError).
Proof.
  intros H. unfold main. destruct (pick_device p) as [device amp_dtype].
  simpl in H. by rewrite bool_decide_eq_false_2.
Qed.

Lemma main_work_needs_cuda args p fs log r :
  run_main args p fs = (log, r) -> log <> [] -> (pick_device p).1 = cuda.
Proof.
  intros Hrun Hlog. destruct (decide ((pick_device p).1 = cuda)) as [|Hne]; [done|].
  rewrite (main_without_cuda _ _ _ Hne) in Hrun. by injection Hrun as <- <-.
Qed.

End MainFacts.

Lemma div_le_self_nonzero (n K : Z) : 1 <= n -> K <> 0 -> Z.max 1 (n / K) <= n.
Proof.
  intros Hn HK. apply Z.max_lub; [done|].
  destruct (Z.lt_trichotomy K 0) as [Hneg|[->|Hpos]]; [|done|].
  - pose proof (Z.div_mod n K HK) as Hdm.
    pose proof (Z.mod_neg_bound n K Hneg) as Hm.
    assert (n / K <= 0) by nia. lia.
  - apply Z.div_le_upper_bound; [done|]. nia.
Qed.

(** C1. In every run of the training loop with [grad_accum = K > 0]: the
    [j]-th micro-batch starts with the step counter at [j] (the counter goes
    up on every micro-batch); the schedule advances on exactly the
    micro-batches that close a group of [K], and the optimizer is updated
    only there; every window of [K] consecutive micro-batches holds exactly
    one schedule advance and, when no gradient in it is non-finite, exactly
    one optimizer update.  The counters of the final state are the totals of
    these events. *)
Theorem one_update_per_accumulation_window
  (json_loads : string -> option json) (py_str : json -> string)
  (DataLoader : list Dataset.Sample -> Z -> result TrainLora.loader)
  (batch : Type) (collate : list Dataset.Sample -> result batch)
  (grads_finite : Z -> bool)
  (args : TrainLora.Args) (p : Config.probe) (fs : filesystem)
  (log : list TrainLora.action) (r : result TrainLora.summary) :
  TrainLora.main json_loads py_str DataLoader batch collate grads_finite args p fs
  = (log, r) ->
  0 < TrainLora.grad_accum args ->
  (forall j ev,
     micro_batches log !! j = Some ev ->
     TrainLora.ev_step ev = Z.of_nat j
     /\ TrainLora.ev_sched ev = is_boundary (TrainLora.grad_accum args) (Z.of_nat j)
     /\ TrainLora.ev_optim ev
        = is_boundary (TrainLora.grad_accum args) (Z.of_nat j) && grads_finite (Z.of_nat j))
  /\ (forall i,
        (i + Z.to_nat (TrainLora.grad_accum args) <= length (micro_batches log))%nat ->
        countb TrainLora.ev_sched
          (window i (Z.to_nat (TrainLora.grad_accum args)) (micro_batches log)) = 1%nat
        /\ ((forall ev,
               ev ∈ window i (Z.to_nat (TrainLora.grad_accum args)) (micro_batches log) ->
               grads_finite (TrainLora.ev_step ev) = true) ->
            countb TrainLora.ev_optim
              (window i (Z.to_nat (TrainLora.grad_accum args)) (micro_batches log)) = 1%nat))
  /\ (forall s,
        r = Ok s ->
        TrainLora.step (TrainLora.final s) = Z.of_nat (length (micro_batches log))
        /\ TrainLora.sched_pos (TrainLora.final s)
           = Z.of_nat (countb TrainLora.ev_sched (micro_batches log))
        /\ TrainLora.optim_updates (TrainLora.final s)
           = Z.of_nat (countb TrainLora.ev_optim (micro_batches log))).
Proof.
  intros Hrun HK.
  apply main_run in Hrun as [[Hnil [e ->]]|(ds & ld & fl & st & _ & _ & _ & _ & Hloop & Hlog & Hr)].
  - rewrite Hnil. split; [|split].
    + intros j ev Hj. by rewrite lookup_nil in Hj.
    + intros i Hi. simpl in Hi. lia.
    + by intros s [=].
  - lazymatch type of Hloop with
    | TrainLora.for_epochs _ _ _ ?K ?T _ ?es _ = _ =>
        pose proof (tracked_for_epochs batch collate grads_finite K T ld es _
                      (tracked_init grads_finite K)) as Htr
    end.
    rewrite Hloop in Htr. destruct Htr as (Hpos & Htrace & Hopt & Hsch). simpl in *.
    rewrite Hlog. split; [|split].
    + intros j ev Hj. rewrite Htrace in Hj.
      apply expected_trace_lookup in Hj as [-> _]. done.
    + intros i Hi. rewrite Htrace in *. rewrite expected_trace_length in Hi.
      rewrite expected_trace_window by done. split.
      * rewrite countb_fmap. simpl. by apply one_boundary_per_window.
      * intros Hfin. rewrite countb_fmap. simpl.
        rewrite <- (one_boundary_per_window (TrainLora.grad_accum args) i HK).
        apply countb_ext. intros j Hj.
        assert (Hf : grads_finite (Z.of_nat j) = true).
        { apply (Hfin (expected_event grads_finite (TrainLora.grad_accum args) (Z.of_nat j))).
          by apply (list_elem_of_fmap_2
                      (fun j => expected_event grads_finite _ (Z.of_nat j))). }
        rewrite Hf. apply andb_true_r.
    + intros s ->. destruct fl; try done; injection Hr as ->; simpl.
      all: rewrite <- Hopt, <- Hsch.
      all: rewrite Htrace, expected_trace_length; split; [lia|done].
Qed.

Lemma one_update_per_accumulation_window_witness :
  0 < TrainLora.grad_accum Fixture.fx_accum_args
  /\ length (micro_batches (Fixture.fx_train_main Fixture.fx_accum_args
                              Fixture.fx_probe_gpu).1) = 6%nat
  /\ countb TrainLora.ev_sched
       (window 3 (Z.to_nat (TrainLora.grad_accum Fixture.fx_accum_args))
          (micro_batches (Fixture.fx_train_main Fixture.fx_accum_args
                            Fixture.fx_probe_gpu).1)) = 1%nat.
Proof.
  split; [reflexivity|]. split; [vm_compute; reflexivity|].
  refine (proj1 (proj1 (proj2 (one_update_per_accumulation_window
    Fixture.fx_loads Fixture.fx_str Fixture.fx_DataLoader unit Fixture.fx_collate
    Fixture.fx_finite Fixture.fx_accum_args Fixture.fx_probe_gpu Fixture.fx_fs
    (Fixture.fx_train_main Fixture.fx_accum_args Fixture.fx_probe_gpu).1
    (Fixture.fx_train_main Fixture.fx_accum_args Fixture.fx_probe_gpu).2
    _ _)) 3%nat _)).
  - apply surjective_pairing.
  - reflexivity.
  - vm_compute. lia.
Defined.

(** C2. In a run that completes, [total_steps] is
    [min(max_train_steps, steps_per_epoch × epochs)], fixed before the first
    micro-batch, and no micro-batch is processed after one that brings the
    step counter to [total_steps]: the loop ends there, whatever data is
    left.  When the budget is positive and the loader is not empty the run
    ends with the counter exactly on [total_steps], although the data would
    have allowed [len(train_loader) × epochs] micro-batches. *)
Theorem loop_stops_at_total_steps
  (json_loads : string -> option json) (py_str : json -> string)
  (DataLoader : list Dataset.Sample -> Z -> result TrainLora.loader)
  (batch : Type) (collate : list Dataset.Sample -> result batch)
  (grads_finite : Z -> bool)
  (args : TrainLora.Args) (p : Config.probe) (fs : filesystem)
  (log : list TrainLora.action) (s : TrainLora.summary) :
  TrainLora.main json_loads py_str DataLoader batch collate grads_finite args p fs
  = (log, Ok s) ->
  exists ds ld,
    Dataset.ProductCaptionDataset json_loads py_str fs (TrainLora.train_jsonl args) = Ok ds
    /\ DataLoader ds (TrainLora.batch_size args) = Ok ld
    /\ TrainLora.total_steps s
       = Z.min (TrainLora.max_train_steps args)
           (Z.max 1 (Z.of_nat (TrainLora.loader_len ld) / TrainLora.grad_accum args)
            * TrainLora.epochs args)
    /\ TrainLora.num_training_steps s = TrainLora.total_steps s
    /\ (forall pre ev post,
          micro_batches log = pre ++ ev :: post ->
          TrainLora.total_steps s <= TrainLora.ev_step ev + 1 ->
          post = [])
    /\ (1 <= TrainLora.total_steps s ->
        (1 <= TrainLora.loader_len ld)%nat ->
        TrainLora.step (TrainLora.final s) = TrainLora.total_steps s
        /\ Z.of_nat (length (micro_batches log)) = TrainLora.total_steps s
        /\ TrainLora.total_steps s
           <= Z.of_nat (TrainLora.loader_len ld) * TrainLora.epochs args).
Proof.
  intros Hrun.
  apply main_run in Hrun
    as [[_ [e [=]]]|(ds & ld & fl & st & _ & Hds & Hld & HK & Hloop & Hlog & Hr)].
  exists ds, ld. split; [done|]. split; [done|].
  set (total := spec_total_steps (TrainLora.max_train_steps args)
                  (Z.max 1 (Z.of_nat (TrainLora.loader_len ld) / TrainLora.grad_accum args))
                  (TrainLora.epochs args)) in *.
  assert (Hs : s = {| TrainLora.total_steps := total;
                      TrainLora.num_warmup_steps := Z.min (TrainLora.warmup_steps args) (total / 5);
                      TrainLora.num_training_steps := total;
                      TrainLora.final := st |} /\ forall e, fl <> TrainLora.Raised e).
  { destruct fl; try done; by injection Hr as ->. }
  destruct Hs as [-> Hfl]. simpl.
  split; [done|]. split; [done|].
  pose proof (tracked_for_epochs batch collate grads_finite (TrainLora.grad_accum args) total
                ld (seq 0 (Z.to_nat (TrainLora.epochs args))) _
                (tracked_init grads_finite _)) as Htr.
  rewrite Hloop in Htr. destruct Htr as (Hpos & Htrace & _). simpl in Hpos, Htrace.
  rewrite Hlog. split.
  - intros pre ev post Hsplit Hreach.
    pose proof (for_epochs_bound _ _ _ _ _ _ _ _ _ _ Hloop (or_introl eq_refl)) as Hle.
    assert (Hev : TrainLora.trace st !! length pre = Some ev).
    { rewrite Hsplit. by apply list_lookup_middle. }
    rewrite Htrace in Hev. apply expected_trace_lookup in Hev as [-> _].
    simpl in Hreach.
    assert (Hlen : length (TrainLora.trace st) = Z.to_nat (TrainLora.step st)).
    { by rewrite Htrace, expected_trace_length. }
    rewrite Hsplit, length_app in Hlen. simpl in Hlen.
    apply nil_length_inv. lia.
  - intros Htot Hnb.
    assert (Hep : 1 <= TrainLora.epochs args).
    { unfold total, spec_total_steps in Htot. nia. }
    assert (Hdata : total <= Z.of_nat (TrainLora.loader_len ld) * TrainLora.epochs args).
    { pose proof (div_le_self_nonzero (Z.of_nat (TrainLora.loader_len ld))
                    (TrainLora.grad_accum args) ltac:(lia) HK).
      unfold total, spec_total_steps. nia. }
    assert (Hstep : TrainLora.step st = total).
    { destruct (for_epochs_progress _ _ _ _ _ _ _ _ _ _ Hloop ltac:(simpl; lia))
        as [H|[[H1 H2]|[e H]]]; [done| |by destruct (Hfl e)].
      rewrite length_seq in H1. simpl in H1. lia. }
    split; [done|]. split; [|done].
    rewrite Htrace, expected_trace_length. lia.
Qed.

Lemma loop_stops_at_total_steps_witness :
  exists log s,
    Fixture.fx_train_main Fixture.fx_train_args Fixture.fx_probe_gpu = (log, Ok s)
    /\ TrainLora.total_steps s = 2
    /\ TrainLora.step (TrainLora.final s) = 2
    /\ exists ds ld,
         Dataset.ProductCaptionDataset Fixture.fx_loads Fixture.fx_str Fixture.fx_fs
           (TrainLora.train_jsonl Fixture.fx_train_args) = Ok ds
         /\ Fixture.fx_DataLoader ds (TrainLora.batch_size Fixture.fx_train_args) = Ok ld
         /\ TrainLora.total_steps s
            = Z.min (TrainLora.max_train_steps Fixture.fx_train_args)
                (Z.max 1 (Z.of_nat (TrainLora.loader_len ld)
                          / TrainLora.grad_accum Fixture.fx_train_args)
                 * TrainLora.epochs Fixture.fx_train_args)
         /\ TrainLora.num_training_steps s = TrainLora.total_steps s
         /\ (forall pre ev post,
               micro_batches log = pre ++ ev :: post ->
               TrainLora.total_steps s <= TrainLora.ev_step ev + 1 ->
               post = [])
         /\ (1 <= TrainLora.total_steps s ->
             (1 <= TrainLora.loader_len ld)%nat ->
             TrainLora.step (TrainLora.final s) = TrainLora.total_steps s
             /\ Z.of_nat (length (micro_batches log)) = TrainLora.total_steps s
             /\ TrainLora.total_steps s
                <= Z.of_nat (TrainLora.loader_len ld)
                   * TrainLora.epochs Fixture.fx_train_args).
Proof.
  eexists _, _. split; [vm_compute; reflexivity|].
  split; [reflexivity|]. split; [reflexivity|].
  apply (loop_stops_at_total_steps Fixture.fx_loads Fixture.fx_str Fixture.fx_DataLoader
           unit Fixture.fx_collate Fixture.fx_finite Fixture.fx_train_args
           Fixture.fx_probe_gpu Fixture.fx_fs).
  vm_compute. reflexivity.
Defined.

(** The same run, spelled out: three batches are available in the first
    epoch and the loop leaves after the second. *)
Example stops_mid_epoch :
  micro_batches (Fixture.fx_train_main Fixture.fx_train_args Fixture.fx_probe_gpu).1
  = [ {| TrainLora.ev_step := 0; TrainLora.ev_optim := false; TrainLora.ev_sched := false |};
      {| TrainLora.ev_step := 1; TrainLora.ev_optim := true; TrainLora.ev_sched := true |} ].
Proof. vm_compute. reflexivity. Qed.

(** The test [step >= total_steps] follows the body of the loop: with a cap
    of zero the first micro-batch still runs, and the loop leaves right
    after it. *)
Example zero_budget_runs_one_micro_batch :
  micro_batches (Fixture.fx_train_main Fixture.fx_zero_budget_args Fixture.fx_probe_gpu).1
  = [ {| TrainLora.ev_step := 0; TrainLora.ev_optim := false; TrainLora.ev_sched := false |} ].
Proof. vm_compute. reflexivity. Qed.

(** ** src/config.py and the start of training *)

(** C6. The probe prefers cuda, then mps, then the cpu, and picks half
    precision exactly when one of the two accelerators is there.  Training
    started on anything but cuda raises [RuntimeError] before any work is
    done; whenever a run does any work, the device is cuda. *)
Theorem training_requires_the_accelerator
  (json_loads : string -> option json) (py_str : json -> string)
  (DataLoader : list Dataset.Sample -> Z -> result TrainLora.loader)
  (batch : Type) (collate : list Dataset.Sample -> result batch)
  (grads_finite : Z -> bool)
  (args : TrainLora.Args) (p : Config.probe) (fs : filesystem) :
  (Config.cuda_is_available p = true -> (Config.pick_device p).1 = Config.cuda)
  /\ (Config.cuda_is_available p = false -> Config.mps_is_available p = true ->
      (Config.pick_device p).1 = Config.mps)
  /\ (Config.cuda_is_available p = false -> Config.mps_is_available p = false ->
      (Config.pick_device p).1 = Config.cpu)
  /\ ((Config.pick_device p).2 = Config.float16 <->
      Config.cuda_is_available p || Config.mps_is_available p = true)
  /\ ((Config.pick_device p).2 = Config.float32 <->
      Config.cuda_is_available p || Config.mps_is_available p = false)
  /\ ((Config.pick_device p).1 <> Config.cuda ->
      TrainLora.main json_loads py_str DataLoader batch collate grads_finite args p fs
      = ([], Raise RuntimeError))
  /\ (forall log r,
        TrainLora.main json_loads py_str DataLoader batch collate grads_finite args p fs
        = (log, r) ->
        log <> [] ->
        (Config.pick_device p).1 = Config.cuda).
Proof.
  split; [|split; [|split; [|split; [|split; [|split]]]]].
  - intros H. unfold Config.pick_device. by rewrite H.
  - intros H1 H2. unfold Config.pick_device. by rewrite H1, H2.
  - intros H1 H2. unfold Config.pick_device. by rewrite H1, H2.
  - unfold Config.pick_device.
    destruct (Config.cuda_is_available p), (Config.mps_is_available p); simpl; split; done.
  - unfold Config.pick_device.
    destruct (Config.cuda_is_available p), (Config.mps_is_available p); simpl; split; done.
  - apply main_without_cuda.
  - apply main_work_needs_cuda.
Qed.

Lemma training_requires_the_accelerator_witness :
  ((Config.pick_device Fixture.fx_probe_cpu).1 <> Config.cuda
   /\ Fixture.fx_train_main Fixture.fx_train_args Fixture.fx_probe_cpu
      = ([], Raise RuntimeError))
  /\ ((Config.pick_device Fixture.fx_probe_mps).1 <> Config.cuda
      /\ Fixture.fx_train_main Fixture.fx_train_args Fixture.fx_probe_mps
         = ([], Raise RuntimeError))
  /\ (Config.cuda_is_available Fixture.fx_probe_gpu = true
      /\ (Config.pick_device Fixture.fx_probe_gpu).1 = Config.cuda).
Proof.
  split; [|split].
  - split; [vm_compute; discriminate|].
    apply (training_requires_the_accelerator Fixture.fx_loads Fixture.fx_str
             Fixture.fx_DataLoader unit Fixture.fx_collate Fixture.fx_finite
             Fixture.fx_train_args Fixture.fx_probe_cpu Fixture.fx_fs).
    vm_compute. discriminate.
  - split; [vm_compute; discriminate|].
    apply (training_requires_the_accelerator Fixture.fx_loads Fixture.fx_str
             Fixture.fx_DataLoader unit Fixture.fx_collate Fixture.fx_finite
             Fixture.fx_train_args Fixture.fx_probe_mps Fixture.fx_fs).
    vm_compute. discriminate.
  - split; [reflexivity|].
    apply (training_requires_the_accelerator Fixture.fx_loads Fixture.fx_str
             Fixture.fx_DataLoader unit Fixture.fx_collate Fixture.fx_finite
             Fixture.fx_train_args Fixture.fx_probe_gpu Fixture.fx_fs).
    reflexivity.
Defined.

(** ** src/predict.py: batch inference *)

Lemma not_found_record_fields m :
  Predict.field (Predict.not_found_record m) "pred_text" = Some JNull
  /\ Predict.field (Predict.not_found_record m) "error" = Some (JStr "image_not_found").
Proof.
  unfold Predict.not_found_record, Predict.field. split.
  - rewrite lookup_insert_ne by done. apply lookup_insert_eq.
  - apply lookup_insert_eq.
Qed.

Lemma captioned_record_fields m pred :
  Predict.field (Predict.captioned_record m pred) "pred_text" = Some (JStr pred)
  /\ Predict.field (Predict.captioned_record m pred) "error" = Some JNull.
Proof.
  unfold Predict.captioned_record, Predict.field. split.
  - rewrite lookup_insert_ne by done. apply lookup_insert_eq.
  - apply lookup_insert_eq.
Qed.

Lemma not_found_record_kind m :
  Predict.exactly_one (Predict.not_found_record m) = true
  /\ Predict.is_error_record (Predict.not_found_record m) = true
  /\ Predict.is_success_record (Predict.not_found_record m) = false.
Proof.
  unfold Predict.exactly_one, Predict.is_error_record, Predict.is_success_record,
    Predict.populated.
  destruct (not_found_record_fields m) as [-> ->]. done.
Qed.

Lemma captioned_record_kind m pred :
  Predict.exactly_one (Predict.captioned_record m pred) = true
  /\ Predict.is_error_record (Predict.captioned_record m pred) = false
  /\ Predict.is_success_record (Predict.captioned_record m pred) = true.
Proof.
  unfold Predict.exactly_one, Predict.is_error_record, Predict.is_success_record,
    Predict.populated.
  destruct (captioned_record_fields m pred) as [-> ->]. done.
Qed.

Section PredictFacts.
Import Predict.
Variable json_loads : string -> option json.
Variable caption : string -> result string.
Variable fs : filesystem.

Local Abbreviation loop := (batch_loop json_loads caption fs).

Lemma batch_loop_blank lim line rest n preds :
  str_empty (strip line) = true ->
  loop lim (line :: rest) n preds = loop lim rest n preds.
Proof. intros H. simpl. by rewrite H. Qed.

Lemma batch_loop_no_image_path lim line rest n preds m :
  str_empty (strip line) = false ->
  json_loads (strip line) = Some (JObj m) ->
  truthy (default JNull (m !! "image_path")) = false ->
  loop lim (line :: rest) n preds = loop lim rest n preds.
Proof.
  intros Hne Hrow Hip. simpl. rewrite Hne. unfold loads. rewrite Hrow. simpl.
  by rewrite Hip.
Qed.

Lemma batch_loop_image_not_found lim line rest n preds m s :
  str_empty (strip line) = false ->
  json_loads (strip line) = Some (JObj m) ->
  m !! "image_path" = Some (JStr s) ->
  s <> "" ->
  fs s = None ->
  loop lim (line :: rest) n preds = loop lim rest n (preds ++ [not_found_record m]).
Proof.
  intros Hne Hrow Hip Hs Hfs. simpl. rewrite Hne. unfold loads. rewrite Hrow. simpl.
  rewrite Hip. simpl.
  destruct (String.eqb_spec s ""); [done|]. simpl.
  unfold path_exists. by rewrite Hfs.
Qed.

Lemma batch_loop_captioned lim line rest n preds m s pred :
  str_empty (strip line) = false ->
  json_loads (strip line) = Some (JObj m) ->
  m !! "image_path" = Some (JStr s) ->
  s <> "" ->
  path_exists fs s = true ->
  caption s = Ok pred ->
  loop lim (line :: rest) n preds
  = if negb (lim =? 0) && (lim <=? n + 1) then Ok (preds ++ [captioned_record m pred])
    else loop lim rest (n + 1) (preds ++ [captioned_record m pred]).
Proof.
  intros Hne Hrow Hip Hs Hfs Hcap. simpl. rewrite Hne. unfold loads. rewrite Hrow. simpl.
  rewrite Hip. simpl.
  destruct (String.eqb_spec s ""); [done|]. simpl.
  rewrite Hfs. simpl. by rewrite Hcap.
Qed.

(** What a completed loop has added to the output. *)
Lemma batch_loop_emits lim lines n preds out :
  loop lim lines n preds = Ok out ->
  exists new,
    out = preds ++ new
    /\ Forall (fun r => exists m, r = not_found_record m
                        \/ exists pred, r = captioned_record m pred) new
    /\ (0 < lim -> n < lim -> n + Z.of_nat (countb is_success_record new) <= lim)
    /\ (length new <= countb (has_image_path json_loads) lines)%nat.
Proof.
  revert n preds. induction lines as [|line rest IH]; intros n preds.
  - intros [= <-]. exists []. rewrite app_nil_r. repeat split; [done|simpl; lia|done].
  - destruct (str_empty (strip line)) eqn:Hne.
    { rewrite batch_loop_blank by done. intros Hrun.
      destruct (IH _ _ Hrun) as (new & -> & Hnew & Hcount & Hlen).
      exists new. repeat split; try done.
      assert (Hhas : has_image_path json_loads line = false).
      { unfold has_image_path. by rewrite Hne. }
      cbn [countb]. rewrite Hhas. lia. }
    destruct (json_loads (strip line)) as [row|] eqn:Hrow.
    2:{ simpl. rewrite Hne. unfold loads. by rewrite Hrow. }
    destruct row as [| | | | | |m];
      try (simpl; rewrite Hne; unfold loads; rewrite Hrow; done).
    destruct (truthy (default JNull (m !! "image_path"))) eqn:Hip.
    2:{ rewrite (batch_loop_no_image_path _ _ _ _ _ m) by done. intros Hrun.
        destruct (IH _ _ Hrun) as (new & -> & Hnew & Hcount & Hlen).
        exists new. repeat split; try done.
        assert (Hhas : has_image_path json_loads line = false).
        { unfold has_image_path. by rewrite Hne, Hrow, Hip. }
        cbn [countb]. rewrite Hhas. lia. }
    assert (Hhas : has_image_path json_loads line = true).
    { unfold has_image_path. by rewrite Hne, Hrow, Hip. }
    destruct (m !! "image_path") as [v|] eqn:Hv; [|done]. simpl in Hip.
    destruct v as [|b|z|repr nz|s|l|m']; simpl in Hip;
      try (simpl; rewrite Hne; unfold loads; rewrite Hrow; simpl; rewrite Hv; simpl;
           rewrite ?Hip; simpl; done).
    assert (Hs : s <> "").
    { simpl in Hip. by destruct (String.eqb_spec s ""). }
    destruct (fs s) as [content|] eqn:Hfs.
    + destruct (caption s) as [pred|e] eqn:Hcap.
      2:{ simpl. rewrite Hne. unfold loads. rewrite Hrow. simpl. rewrite Hv. simpl.
          rewrite Hip. simpl. unfold path_exists. rewrite Hfs. simpl. by rewrite Hcap. }
      rewrite (batch_loop_captioned _ _ _ _ _ m s pred); try done.
      2:{ unfold path_exists. by rewrite Hfs. }
      destruct (captioned_record_kind m pred) as (_ & _ & Hsucc).
      destruct (negb (lim =? 0) && (lim <=? n + 1)) eqn:Hlim.
      * intros [= <-]. exists [captioned_record m pred].
        split; [done|]. split; [|split].
        -- constructor; [|done]. exists m. right. by exists pred.
        -- intros. cbn [countb]. rewrite Hsucc. lia.
        -- cbn [countb length]. rewrite Hhas. lia.
      * intros Hrun. destruct (IH _ _ Hrun) as (new & -> & Hnew & Hcount & Hlen).
        exists (captioned_record m pred :: new).
        split; [by rewrite <- app_assoc|]. split; [|split].
        -- constructor; [|done]. exists m. right. by exists pred.
        -- intros H0 Hn. cbn [countb]. rewrite Hsucc.
           assert (n + 1 < lim).
           { apply andb_false_iff in Hlim as [Hz|Hle].
             - apply negb_false_iff, Z.eqb_eq in Hz. lia.
             - apply Z.leb_gt in Hle. lia. }
           specialize (Hcount H0 ltac:(done)). lia.
        -- cbn [countb length]. rewrite Hhas. lia.
    + rewrite (batch_loop_image_not_found _ _ _ _ _ m s) by done.
      destruct (not_found_record_kind m) as (_ & _ & Hsucc).
      intros Hrun. destruct (IH _ _ Hrun) as (new & -> & Hnew & Hcount & Hlen).
      exists (not_found_record m :: new).
      split; [by rewrite <- app_assoc|]. split; [|split].
      * constructor; [|done]. exists m. by left.
      * intros H0 Hn. cbn [countb]. rewrite Hsucc. specialize (Hcount H0 Hn). lia.
      * cbn [countb length]. rewrite Hhas. lia.
Qed.

End PredictFacts.

Lemma record_kinds_exactly_one (new : list json) :
  Forall (fun r => exists m, r = Predict.not_found_record m
                     \/ exists pred, r = Predict.captioned_record m pred) new ->
  Forall (fun r => Predict.exactly_one r = true) new
  /\ (forall r, r ∈ new -> Predict.is_error_record r = true ->
        Predict.field r "error" = Some (JStr "image_not_found")
        /\ Predict.field r "pred_text" = Some JNull)
  /\ length new
     = (countb Predict.is_success_record new + countb Predict.is_error_record new)%nat.
Proof.
  induction 1 as [|r new [m [->|[pred ->]]] Hnew (IH1 & IH2 & IH3)].
  - split; [done|]. split; [|done]. intros r Hr. by apply elem_of_nil in Hr.
  - destruct (not_found_record_kind m) as (H1 & H2 & H3).
    destruct (not_found_record_fields m) as [F1 F2].
    split; [by constructor|]. split.
    + intros r Hr Herr. apply elem_of_cons in Hr as [->|Hr]; [done|by apply IH2].
    + cbn [countb length]. rewrite H2, H3, IH3. lia.
  - destruct (captioned_record_kind m pred) as (H1 & H2 & H3).
    split; [by constructor|]. split.
    + intros r Hr Herr. apply elem_of_cons in Hr as [->|Hr]; [congruence|by apply IH2].
    + cbn [countb length]. rewrite H2, H3, IH3. lia.
Qed.

Lemma main_written json_loads caption fs args path rows :
  Predict.main json_loads caption fs args = Ok (Predict.Written path rows) ->
  exists in_path lines,
    Predict.jsonl args = Some in_path
    /\ fs in_path = Some lines
    /\ path = Predict.out args
    /\ Predict.batch_loop json_loads caption fs (Predict.limit args) lines 0 [] = Ok rows.
Proof.
  assert (Hbatch : Predict.batch_mode json_loads caption fs args
                   = Ok (Predict.Written path rows) ->
                   exists in_path lines,
                     Predict.jsonl args = Some in_path
                     /\ fs in_path = Some lines
                     /\ path = Predict.out args
                     /\ Predict.batch_loop json_loads caption fs (Predict.limit args)
                          lines 0 [] = Ok rows).
  { unfold Predict.batch_mode.
    destruct (Predict.jsonl args) as [in_path|]; [|done].
    destruct (fs in_path) as [lines|] eqn:Efs; [|done].
    destruct (Predict.batch_loop _ _ _ _ _ _ _) as [preds|e] eqn:E; [|done].
    simpl. intros [= <- <-]. by exists in_path, lines. }
  unfold Predict.main. destruct (Predict.image args) as [img|]; [|done].
  destruct (str_empty img); [done|].
  unfold Predict.single_image.
  destruct (negb (path_exists fs img)); [done|].
  by destruct (caption img).
Qed.

(** C7. Every record that batch inference writes has exactly one of
    [pred_text] and [error] set, and an error record is
    [error = "image_not_found"] with [pred_text = null].  A row whose image
    file is missing adds such a record to the output and the loop goes on
    with the next line, its counter untouched; what was added stays in the
    output. *)
Theorem prediction_records_exactly_one_of_pred_and_error
  (json_loads : string -> option json) (caption : string -> result string)
  (fs : filesystem) :
  (forall args path rows,
     Predict.main json_loads caption fs args = Ok (Predict.Written path rows) ->
     Forall (fun r => Predict.exactly_one r = true) rows
     /\ (forall r, r ∈ rows -> Predict.is_error_record r = true ->
           Predict.field r "error" = Some (JStr "image_not_found")
           /\ Predict.field r "pred_text" = Some JNull))
  /\ (forall lim line rest n preds m s,
        str_empty (strip line) = false ->
        json_loads (strip line) = Some (JObj m) ->
        m !! "image_path" = Some (JStr s) ->
        s <> "" ->
        fs s = None ->
        Predict.batch_loop json_loads caption fs lim (line :: rest) n preds
        = Predict.batch_loop json_loads caption fs lim rest n
            (preds ++ [Predict.not_found_record m]))
  /\ (forall lim lines n preds out,
        Predict.batch_loop json_loads caption fs lim lines n preds = Ok out ->
        preds `prefix_of` out).
Proof.
  split; [|split].
  - intros args path rows Hmain.
    apply main_written in Hmain as (in_path & lines & _ & _ & _ & Hloop).
    apply batch_loop_emits in Hloop as (new & -> & Hnew & _).
    apply record_kinds_exactly_one in Hnew as (H1 & H2 & _). done.
  - intros. by eapply batch_loop_image_not_found.
  - intros lim lines n preds out Hloop.
    apply batch_loop_emits in Hloop as (new & -> & _). by exists new.
Qed.

Lemma prediction_records_exactly_one_of_pred_and_error_witness :
  exists rows,
    Predict.main Fixture.fx_loads Fixture.fx_caption Fixture.fx_fs (Fixture.fx_predict_args 0)
    = Ok (Predict.Written "preds.jsonl" rows)
    /\ length rows = 3%nat
    /\ Forall (fun r => Predict.exactly_one r = true) rows
    /\ (forall r, r ∈ rows -> Predict.is_error_record r = true ->
          Predict.field r "error" = Some (JStr "image_not_found")
          /\ Predict.field r "pred_text" = Some JNull).
Proof.
  eexists. split; [vm_compute; reflexivity|]. split; [reflexivity|].
  apply (proj1 (prediction_records_exactly_one_of_pred_and_error
                  Fixture.fx_loads Fixture.fx_caption Fixture.fx_fs)
           (Fixture.fx_predict_args 0) "preds.jsonl").
  vm_compute. reflexivity.
Defined.

(** Scenario B: two records, the first with an image that is not on disk. *)
Example scenario_B :
  Predict.batch_loop Fixture.fx_loads Fixture.fx_caption Fixture.fx_fs 0 ["hat"; "shoe"] 0 []
  = Ok [ Predict.not_found_record
           (list_to_map [("image_path", JStr "hat.jpg"); ("text", JStr "straw hat")]);
         Predict.captioned_record
           (list_to_map [("image_path", JStr "shoe.jpg"); ("text", JStr "red shoe")])
           "a photo of shoe.jpg" ].
Proof. vm_compute. reflexivity. Qed.



(** C10. A row whose [image_path] is missing or empty leaves no trace in the
    output: the loop moves on without adding a record of any kind.  The
    output has at most one record per row with an [image_path], so it can be
    shorter than the input. *)
Theorem rows_without_image_path_are_omitted :
  (forall (json_loads : string -> option json) (caption : string -> result string)
          (fs : filesystem) (lim : Z) (line : string) (rest : list string)
          (n : Z) (preds : list json) (m : gmap string json),
     str_empty (strip line) = false ->
     json_loads (strip line) = Some (JObj m) ->
     truthy (default JNull (m !! "image_path")) = false ->
     Predict.batch_loop json_loads caption fs lim (line :: rest) n preds
     = Predict.batch_loop json_loads caption fs lim rest n preds)
  /\ (forall (json_loads : string -> option json) (caption : string -> result string)
             (fs : filesystem) (lim : Z) (lines : list string) (out : list json),
        Predict.batch_loop json_loads caption fs lim lines 0 [] = Ok out ->
        (length out <= countb (Predict.has_image_path json_loads) lines)%nat
        /\ (countb (Predict.has_image_path json_loads) lines
            <= length (Predict.input_rows lines))%nat)
  /\ (exists (json_loads : string -> option json) (caption : string -> result string)
             (fs : filesystem) (lim : Z) (lines : list string) (out : list json),
        Predict.batch_loop json_loads caption fs lim lines 0 [] = Ok out
        /\ (length out < length (Predict.input_rows lines))%nat).
Proof.
  split; [|split].
  - intros. by apply batch_loop_no_image_path with m.
  - intros json_loads caption fs lim lines out Hloop.
    apply batch_loop_emits in Hloop as (new & -> & _ & _ & Hlen). simpl. split; [done|].
    clear. unfold Predict.input_rows.
    induction lines as [|l lines IH]; [done|].
    rewrite filter_cons. cbn [countb]. unfold Predict.has_image_path at 1.
    destruct (str_empty (strip l)); simpl; [lia|].
    destruct (match json_loads (strip l) with
              | Some (JObj m) => truthy (default JNull (m !! "image_path"))
              | _ => false
              end); simpl; lia.
  - exists Fixture.fx_loads, Fixture.fx_caption, Fixture.fx_fs, 0, Fixture.infer_lines.
    eexists. split; [vm_compute; reflexivity|]. vm_compute. lia.
Qed.

Lemma rows_without_image_path_are_omitted_witness :
  (str_empty (strip "no_image") = false
   /\ Fixture.fx_loads (strip "no_image")
      = Some (JObj (list_to_map [("text", JStr "blue scarf")]))
   /\ Predict.batch_loop Fixture.fx_loads Fixture.fx_caption Fixture.fx_fs 0
        ["no_image"; "bag"] 0 []
      = Predict.batch_loop Fixture.fx_loads Fixture.fx_caption Fixture.fx_fs 0
          ["bag"] 0 [])
  /\ exists out,
       Predict.batch_loop Fixture.fx_loads Fixture.fx_caption Fixture.fx_fs 0
         Fixture.infer_lines 0 [] = Ok out
       /\ length out = 3%nat
       /\ length (Predict.input_rows Fixture.infer_lines) = 4%nat
       /\ (length out <= countb (Predict.has_image_path Fixture.fx_loads)
                           Fixture.infer_lines)%nat
       /\ (countb (Predict.has_image_path Fixture.fx_loads) Fixture.infer_lines
           <= length (Predict.input_rows Fixture.infer_lines))%nat.
Proof.
  split.
  - split; [reflexivity|]. split; [vm_compute; reflexivity|].
    apply (proj1 rows_without_image_path_are_omitted Fixture.fx_loads Fixture.fx_caption
             Fixture.fx_fs 0 "no_image" ["bag"] 0 []
             (list_to_map [("text", JStr "blue scarf")])).
    + reflexivity.
    + vm_compute. reflexivity.
    + vm_compute. reflexivity.
  - eexists. split; [vm_compute; reflexivity|]. split; [reflexivity|].
    split; [vm_compute; reflexivity|].
    apply (proj1 (proj2 rows_without_image_path_are_omitted) Fixture.fx_loads
             Fixture.fx_caption Fixture.fx_fs 0 Fixture.infer_lines).
    vm_compute. reflexivity.
Defined.

(** ** src/evaluate.py: the metrics report *)

Lemma records_of_lines_length json_loads lines objs :
  Dataset.records_of_lines json_loads lines = Some objs ->
  length objs = length (Predict.input_rows lines).
Proof.
  unfold Predict.input_rows.
  revert objs. induction lines as [|l lines IH]; intros objs; simpl.
  - by intros [= <-].
  - rewrite filter_cons. destruct (str_empty (strip l)); simpl; [by apply IH|].
    destruct (json_loads (strip l)) as [[| | | | | |m]|]; try done.
    destruct (Dataset.records_of_lines json_loads lines) as [ms|]; [|done].
    intros [= <-]. simpl. by rewrite (IH ms).
Qed.

Section EvaluateFacts.
Import Evaluate.
Variable json_loads : string -> option json.
Variable py_str : json -> string.

Lemma collect_records lines acc acc' :
  collect json_loads py_str lines acc = Ok acc' ->
  exists objs,
    Dataset.records_of_lines json_loads lines = Some objs
    /\ c_preds acc'
       = c_preds acc
         ++ ((fun m => py_str (default JNull (m !! "pred_text")))
               <$> filter (fun m => counted m = true) objs)
    /\ c_refs acc'
       = c_refs acc
         ++ ((fun m => py_str (default JNull (m !! "text")))
               <$> filter (fun m => counted m = true) objs).
Proof.
  revert acc. induction lines as [|line rest IH]; intros acc.
  - intros [= <-]. exists []. by rewrite !app_nil_r.
  - simpl. destruct (str_empty (strip line)); [by apply IH|].
    unfold loads. destruct (json_loads (strip line)) as [row|]; [|done].
    destruct row as [| | | | | |m]; try done. simpl.
    destruct (is_None (default JNull (m !! "error"))) eqn:Eerr; simpl.
    2:{ intros Hrun. destruct (IH _ Hrun) as (objs & -> & Hp & Hr).
        exists (m :: objs). split; [done|].
        assert (Hc : counted m = false).
        { unfold counted, error_row. by rewrite Eerr. }
        rewrite filter_cons_False by (rewrite Hc; done). done. }
    destruct (negb (truthy (default JNull (m !! "text")))
              || negb (truthy (default JNull (m !! "pred_text")))) eqn:Evalid;
      rewrite <- negb_andb in Evalid.
    + apply negb_true_iff in Evalid.
      intros Hrun. destruct (IH _ Hrun) as (objs & -> & Hp & Hr).
      exists (m :: objs). split; [done|].
      assert (Hc : counted m = false).
      { unfold counted, valid_pair. rewrite Evalid. apply andb_false_r. }
      rewrite filter_cons_False by (rewrite Hc; done). done.
    + apply negb_false_iff in Evalid.
      intros Hrun. destruct (IH _ Hrun) as (objs & -> & Hp & Hr).
      exists (m :: objs). split; [done|].
      assert (Hc : counted m = true).
      { unfold counted, error_row, valid_pair. by rewrite Eerr, Evalid. }
      rewrite filter_cons_True by done.
      simpl in Hp, Hr. rewrite Hp, Hr. csimpl. by rewrite <- !app_assoc.
Qed.

End EvaluateFacts.

(** C8. Whenever evaluation produces a report, its [n] is the number of
    rows of the predictions file that are not error rows and carry a
    reference and a prediction; the rows filtered out are not counted, so
    [n] plus their number is the number of rows in the file. *)
Theorem metrics_n_counts_valid_pairs
  (json_loads : string -> option json) (py_str : json -> string)
  (score : Type)
  (sacrebleu : list string -> list (list string) -> result score)
  (rouge : list string -> list string -> result (score * score * score * score))
  (fs : filesystem) (args : Evaluate.Args)
  (m : Evaluate.metrics score) (samples : list (json * string * string)) :
  Evaluate.main json_loads py_str score sacrebleu rouge fs args = Ok (m, samples) ->
  exists lines objs,
    fs (Evaluate.preds args) = Some lines
    /\ Dataset.records_of_lines json_loads lines = Some objs
    /\ length objs = length (Predict.input_rows lines)
    /\ Evaluate.m_n score m = Z.of_nat (countb Evaluate.counted objs)
    /\ Evaluate.m_n score m
       + Z.of_nat (countb (fun r => negb (Evaluate.counted r)) objs)
       = Z.of_nat (length objs).
Proof.
  unfold Evaluate.main.
  destruct (fs (Evaluate.preds args)) as [lines|] eqn:Efs; [|done].
  destruct (Evaluate.collect json_loads py_str lines _) as [acc|e] eqn:Ecol; [|done].
  simpl. unfold Evaluate.compute_metrics.
  destruct (sacrebleu _ _) as [b|e]; [|done]. simpl.
  destruct (rouge _ _) as [[[[r1 r2] rL] rLsum]|e]; [|done]. simpl.
  intros [= <- <-]. simpl.
  apply collect_records in Ecol as (objs & Hobjs & Hp & _). simpl in Hp.
  exists lines, objs. split; [done|]. split; [done|].
  split; [by apply records_of_lines_length with json_loads|].
  assert (Hn : length (Evaluate.c_preds acc) = countb Evaluate.counted objs).
  { by rewrite Hp, length_fmap, countb_filter_length. }
  rewrite Hn. split; [done|].
  pose proof (countb_split Evaluate.counted objs). lia.
Qed.

Lemma metrics_n_counts_valid_pairs_witness :
  exists m samples,
    Evaluate.main Fixture.fx_loads Fixture.fx_str Z Fixture.fx_bleu Fixture.fx_rouge
      Fixture.fx_fs Fixture.fx_eval_args = Ok (m, samples)
    /\ Evaluate.m_n Z m = 2
    /\ length (Predict.input_rows Fixture.preds_lines) = 3%nat
    /\ exists lines objs,
         Fixture.fx_fs (Evaluate.preds Fixture.fx_eval_args) = Some lines
         /\ Dataset.records_of_lines Fixture.fx_loads lines = Some objs
         /\ length objs = length (Predict.input_rows lines)
         /\ Evaluate.m_n Z m = Z.of_nat (countb Evaluate.counted objs)
         /\ Evaluate.m_n Z m
            + Z.of_nat (countb (fun r => negb (Evaluate.counted r)) objs)
            = Z.of_nat (length objs).
Proof.
  eexists _, _. split; [vm_compute; reflexivity|].
  split; [reflexivity|]. split; [vm_compute; reflexivity|].
  eapply (metrics_n_counts_valid_pairs Fixture.fx_loads Fixture.fx_str Z Fixture.fx_bleu
            Fixture.fx_rouge Fixture.fx_fs Fixture.fx_eval_args).
  vm_compute. reflexivity.
Defined.


(* ===================================================================== *)
(** * Further properties of the sources *)
(* ===================================================================== *)

(** ** src/dataset.py *)

Section LoadJsonlFacts.
Import Dataset.
Variable json_loads : string -> option json.

Lemma load_jsonl_lines_mapM lines rows :
  load_jsonl_lines json_loads lines rows
  = match mapM json_loads (strip <$> Predict.input_rows lines) with
    | Some parsed => Ok (rows ++ parsed)
    | None => Raise JSONDecodeError
    end.
Proof.
  unfold Predict.input_rows.
  revert rows. induction lines as [|line rest IH]; intros rows.
  - simpl. by rewrite app_nil_r.
  - simpl. rewrite filter_cons.
    destruct (str_empty (strip line)) eqn:E; simpl; [apply IH|].
    unfold loads. destruct (json_loads (strip line)) as [v|]; simpl; [|done].
    rewrite IH.
    destruct (mapM json_loads _) as [parsed|]; simpl; [|done].
    by rewrite <- app_assoc.
Qed.

End LoadJsonlFacts.

(** X1. [load_jsonl] returns, in file order, what the parser makes of each
    non-blank line once stripped, whatever kind of JSON value it is; it
    raises [JSONDecodeError] as soon as one such line does not parse, and
    [FileNotFoundError] when the file is missing. *)
Theorem load_jsonl_parses_nonblank_lines
  (json_loads : string -> option json) (fs : filesystem) (path : string) :
  Dataset.load_jsonl json_loads fs path
  = match fs path with
    | None => Raise FileNotFoundError
    | Some lines =>
        match mapM json_loads (strip <$> Predict.input_rows lines) with
        | Some rows => Ok rows
        | None => Raise JSONDecodeError
        end
    end.
Proof.
  unfold Dataset.load_jsonl, open_read.
  destruct (fs path) as [lines|]; simpl; [|done].
  apply load_jsonl_lines_mapM.
Qed.

(** X2. When the file parses but one of its rows is not a JSON object (a
    number, a string, a list), building the dataset raises
    [AttributeError]: such a row is not dropped. *)
Theorem dataset_rejects_non_object_rows
  (json_loads : string -> option json) (py_str : json -> string)
  (fs : filesystem) (path : string) (rows : list json) (r : json) :
  Dataset.load_jsonl json_loads fs path = Ok rows ->
  r ∈ rows ->
  (forall m, r <> JObj m) ->
  Dataset.ProductCaptionDataset json_loads py_str fs path = Raise AttributeError.
Proof.
  intros Hload Hin Hbad. unfold Dataset.ProductCaptionDataset. rewrite Hload. simpl.
  apply keep_valid_not_object. by exists r.
Qed.

Lemma dataset_rejects_non_object_rows_witness :
  Dataset.load_jsonl Fixture.fx_loads Fixture.fx_fs "mixed.jsonl"
  = Ok [Fixture.obj [("image_path", JStr "shoe.jpg"); ("text", JStr "red shoe")]; JInt 7]
  /\ Dataset.ProductCaptionDataset Fixture.fx_loads Fixture.fx_str Fixture.fx_fs "mixed.jsonl"
     = Raise AttributeError.
Proof.
  split; [vm_compute; reflexivity|].
  apply (dataset_rejects_non_object_rows Fixture.fx_loads Fixture.fx_str Fixture.fx_fs
           "mixed.jsonl"
           [Fixture.obj [("image_path", JStr "shoe.jpg"); ("text", JStr "red shoe")]; JInt 7]
           (JInt 7)).
  - vm_compute. reflexivity.
  - apply list_elem_of_further, list_elem_of_here.
  - discriminate.
Defined.

(** X3. When [str] leaves strings as they are and the records keep strings
    in [image_path] and [text], every Sample of the loaded store carries the
    two strings of its record verbatim, and neither of them is empty. *)
Theorem samples_have_nonempty_fields
  (json_loads : string -> option json) (py_str : json -> string)
  (fs : filesystem) (path : string)
  (lines : list string) (objs : list (gmap string json)) (ds : list Dataset.Sample) :
  (forall s, py_str (JStr s) = s) ->
  fs path = Some lines ->
  Dataset.records_of_lines json_loads lines = Some objs ->
  (forall m key v,
     m ∈ objs -> key = "image_path" \/ key = "text" -> m !! key = Some v ->
     exists s, v = JStr s) ->
  Dataset.ProductCaptionDataset json_loads py_str fs path = Ok ds ->
  forall smp,
    smp ∈ ds ->
    Dataset.image_path smp <> "" /\ Dataset.text smp <> ""
    /\ exists m,
         m ∈ objs
         /\ m !! "image_path" = Some (JStr (Dataset.image_path smp))
         /\ m !! "text" = Some (JStr (Dataset.text smp)).
Proof.
  intros Hstr Hfs Hrec Hfields Hds smp Hin.
  rewrite (dataset_of_records json_loads py_str fs path lines objs Hfs Hrec) in Hds.
  injection Hds as <-. unfold Dataset.spec_store in Hin.
  apply list_elem_of_fmap in Hin as (m & -> & Hm).
  apply list_elem_of_filter in Hm as [Hvalid Hm].
  unfold Dataset.valid_record, Dataset.field_nonempty in Hvalid.
  apply andb_true_iff in Hvalid as [Hip Htxt].
  destruct (m !! "image_path") as [vi|] eqn:Ei; [|done].
  destruct (m !! "text") as [vt|] eqn:Et; [|done].
  destruct (Hfields m "image_path" vi Hm (or_introl eq_refl) Ei) as [si ->].
  destruct (Hfields m "text" vt Hm (or_intror eq_refl) Et) as [st ->].
  unfold Dataset.sample_of_record. rewrite Ei, Et. simpl. rewrite !Hstr.
  simpl in Hip, Htxt.
  split; [by destruct (String.eqb_spec si "")|].
  split; [by destruct (String.eqb_spec st "")|].
  by exists m.
Qed.

Lemma samples_have_nonempty_fields_witness :
  Dataset.ProductCaptionDataset Fixture.fx_loads Fixture.fx_str Fixture.fx_fs "train.jsonl"
  = Ok [ {| Dataset.image_path := "shoe.jpg"; Dataset.text := "red shoe" |};
         {| Dataset.image_path := "bag.jpg"; Dataset.text := "leather bag" |};
         {| Dataset.image_path := "hat.jpg"; Dataset.text := "straw hat" |} ]
  /\ "bag.jpg" <> "" /\ "leather bag" <> ""
  /\ exists m,
       m ∈ Fixture.train_records
       /\ m !! "image_path" = Some (JStr "bag.jpg")
       /\ m !! "text" = Some (JStr "leather bag").
Proof.
  split; [vm_compute; reflexivity|].
  apply (samples_have_nonempty_fields Fixture.fx_loads Fixture.fx_str Fixture.fx_fs
           "train.jsonl" Fixture.train_lines Fixture.train_records
           [ {| Dataset.image_path := "shoe.jpg"; Dataset.text := "red shoe" |};
             {| Dataset.image_path := "bag.jpg"; Dataset.text := "leather bag" |};
             {| Dataset.image_path := "hat.jpg"; Dataset.text := "straw hat" |} ])
    with (smp := {| Dataset.image_path := "bag.jpg"; Dataset.text := "leather bag" |}).
  - reflexivity.
  - reflexivity.
  - vm_compute. reflexivity.
  - intros m key v Hm Hkey Hv. unfold Fixture.train_records in Hm.
    repeat (apply elem_of_cons in Hm as [->|Hm]);
      [..|by apply elem_of_nil in Hm];
      destruct Hkey as [->| ->]; vm_compute in Hv; try discriminate Hv;
      injection Hv as <-; eexists; reflexivity.
  - vm_compute. reflexivity.
  - apply (list_elem_of_further _ _ _ (list_elem_of_here _ _)).
Defined.

(** ** src/train_lora.py: more on the collator *)

Lemma list_comp_first_raise {A B} (f : A -> result B) (pre : list A) (x : A)
  (post : list A) (e : exn) :
  (forall a, a ∈ pre -> exists b, f a = Ok b) ->
  f x = Raise e ->
  list_comp f (pre ++ x :: post) = Raise e.
Proof.
  intros Hpre Hx. induction pre as [|a pre IH]; simpl.
  - by rewrite Hx.
  - destruct (Hpre a) as [b ->]; [apply list_elem_of_here|]. simpl.
    rewrite IH; [done|]. intros a' Ha'. apply Hpre. by apply list_elem_of_further.
Qed.

(** X5. When an image of the batch cannot be loaded, the collator raises the
    error of the first such image, whatever the processor would do, and no
    batch is built. *)
Theorem collator_raises_first_image_error
  (image tensor : Type)
  (load_image_rgb : string -> result image)
  (processor : list image -> list string -> result (TrainLora.encoding tensor))
  (pre : list Dataset.Sample) (s : Dataset.Sample) (post : list Dataset.Sample)
  (σ : gmap nat tensor) (e : exn) :
  (forall a, a ∈ pre -> exists img, load_image_rgb (Dataset.image_path a) = Ok img) ->
  load_image_rgb (Dataset.image_path s) = Raise e ->
  TrainLora.BlipCollator_call image tensor load_image_rgb processor (pre ++ s :: post) σ
  = Raise e.
Proof.
  intros Hpre Hs. unfold TrainLora.BlipCollator_call.
  by rewrite (list_comp_first_raise _ pre s post e Hpre Hs).
Qed.

Lemma collator_raises_first_image_error_witness :
  Fixture.fx_load_image "hat.jpg" = Raise FileNotFoundError
  /\ TrainLora.BlipCollator_call unit (list Z) Fixture.fx_load_image Fixture.fx_processor
       ([ {| Dataset.image_path := "shoe.jpg"; Dataset.text := "red shoe" |} ]
        ++ {| Dataset.image_path := "hat.jpg"; Dataset.text := "straw hat" |}
           :: [ {| Dataset.image_path := "bag.jpg"; Dataset.text := "leather bag" |} ])
       ∅ = Raise FileNotFoundError.
Proof.
  split; [reflexivity|].
  apply (collator_raises_first_image_error unit (list Z) Fixture.fx_load_image
           Fixture.fx_processor).
  - intros a Ha. apply list_elem_of_singleton in Ha as ->. exists tt. reflexivity.
  - reflexivity.
Defined.

(** ** src/train_lora.py: more on the training loop *)

Lemma div_succ (K n : Z) :
  0 < K -> 0 <= n ->
  (n + 1) / K = n / K + (if is_boundary K n then 1 else 0).
Proof.
  intros HK Hn. unfold is_boundary.
  pose proof (Z.div_mod n K ltac:(lia)) as Hdm.
  pose proof (Z.mod_pos_bound n K HK) as Hm.
  set (q := n / K) in *. set (r := n mod K) in *.
  destruct (decide (r = K - 1)) as [Hr|Hr].
  - assert (Hn1 : n + 1 = (q + 1) * K) by lia.
    rewrite Hn1, Z.mod_mul, Z.div_mul by lia. simpl. lia.
  - assert (Hq : q = (n + 1) / K).
    { apply (Z.div_unique (n + 1) K q (r + 1)); lia. }
    assert (Hr1 : r + 1 = (n + 1) mod K).
    { apply (Z.mod_unique (n + 1) K q (r + 1)); lia. }
    rewrite <- Hq, <- Hr1.
    destruct (Z.eqb_spec (r + 1) 0); lia.
Qed.

Lemma boundaries_up_to (K : Z) (n : nat) :
  0 < K ->
  Z.of_nat (countb (fun j => is_boundary K (Z.of_nat j)) (seq 0 n)) = Z.of_nat n / K.
Proof.
  intros HK. induction n as [|n IH].
  - simpl. by rewrite Z.div_0_l by lia.
  - rewrite seq_S, countb_app. simpl countb.
    rewrite Nat2Z.inj_add, IH.
    replace (Z.of_nat (S n)) with (Z.of_nat n + 1) by lia.
    rewrite div_succ by lia.
    destruct (is_boundary K (Z.of_nat n)); simpl; lia.
Qed.

Lemma optim_le_sched finite K n :
  (countb TrainLora.ev_optim (expected_trace finite K n)
   <= countb TrainLora.ev_sched (expected_trace finite K n))%nat.
Proof.
  unfold expected_trace. rewrite !countb_fmap. simpl.
  induction (seq 0 n) as [|j l IH]; simpl; [done|].
  destruct (is_boundary K (Z.of_nat j)), (finite (Z.of_nat j)); simpl; lia.
Qed.

Section TrainFacts.
Import Config Dataset TrainLora.
Variable json_loads : string -> option json.
Variable py_str : json -> string.
Variable DataLoader : list Sample -> Z -> result loader.
Variable batch : Type.
Variable collate : list Sample -> result batch.
Variable grads_finite : Z -> bool.

Local Abbreviation run_main := (main json_loads py_str DataLoader batch collate grads_finite).

(** A completed run: its final state is tracked and within the budget. *)
Lemma main_completed args p fs log s :
  run_main args p fs = (log, Ok s) ->
  tracked grads_finite (grad_accum args) (final s)
  /\ step (final s) <= Z.max 1 (total_steps s)
  /\ micro_batches log = trace (final s).
Proof.
  intros Hrun.
  apply main_run in Hrun
    as [[_ [e [=]]]|(ds & ld & fl & st & _ & _ & _ & _ & Hloop & Hlog & Hr)].
  assert (Hfinal : final s = st
                   /\ total_steps s
                      = spec_total_steps (max_train_steps args)
                          (Z.max 1 (Z.of_nat (loader_len ld) / grad_accum args))
                          (epochs args)).
  { destruct fl; try done; by injection Hr as ->. }
  destruct Hfinal as [-> ->].
  split; [|split; [|done]].
  - lazymatch type of Hloop with
    | for_epochs _ _ _ ?K ?T _ ?es _ = _ =>
        pose proof (tracked_for_epochs batch collate grads_finite K T ld es _
                      (tracked_init grads_finite K)) as Htr
    end.
    by rewrite Hloop in Htr.
  - by apply (for_epochs_bound _ _ _ _ _ _ _ _ _ _ Hloop (or_introl eq_refl)).
Qed.

Lemma save_not_micro_batch (tr : list event) : SaveAdapter ∉ MicroBatch <$> tr.
Proof. intros H. by apply list_elem_of_fmap in H as (ev & ? & _). Qed.

End TrainFacts.

(** X6. In a completed run with [grad_accum = K > 0] the schedule has
    advanced [step // K] times, where [step] is the number of micro-batches
    processed, which is at most [max(1, total_steps)]; the optimizer was
    updated at most as often, and exactly as often when no gradient was
    non-finite.  So a schedule created for [total_steps] positions is
    advanced through only about a [K]-th of them. *)
Theorem updates_are_steps_over_accumulation
  (json_loads : string -> option json) (py_str : json -> string)
  (DataLoader : list Dataset.Sample -> Z -> result TrainLora.loader)
  (batch : Type) (collate : list Dataset.Sample -> result batch)
  (grads_finite : Z -> bool)
  (args : TrainLora.Args) (p : Config.probe) (fs : filesystem)
  (log : list TrainLora.action) (s : TrainLora.summary) :
  TrainLora.main json_loads py_str DataLoader batch collate grads_finite args p fs
  = (log, Ok s) ->
  0 < TrainLora.grad_accum args ->
  TrainLora.sched_pos (TrainLora.final s)
  = TrainLora.step (TrainLora.final s) / TrainLora.grad_accum args
  /\ TrainLora.step (TrainLora.final s) <= Z.max 1 (TrainLora.total_steps s)
  /\ TrainLora.sched_pos (TrainLora.final s)
     <= Z.max 1 (TrainLora.num_training_steps s) / TrainLora.grad_accum args
  /\ TrainLora.optim_updates (TrainLora.final s) <= TrainLora.sched_pos (TrainLora.final s)
  /\ ((forall j, grads_finite j = true) ->
      TrainLora.optim_updates (TrainLora.final s)
      = TrainLora.step (TrainLora.final s) / TrainLora.grad_accum args).
Proof.
  intros Hrun HK.
  assert (Hnum : TrainLora.num_training_steps s = TrainLora.total_steps s).
  { apply main_run in Hrun
      as [[_ [e [=]]]|(ds & ld & fl & st & _ & _ & _ & _ & _ & _ & Hr)].
    destruct fl; try done; by injection Hr as ->. }
  apply main_completed in Hrun as ((Hpos & Htrace & Hopt & Hsch) & Hle & _).
  assert (Hsched : TrainLora.sched_pos (TrainLora.final s)
                   = TrainLora.step (TrainLora.final s) / TrainLora.grad_accum args).
  { rewrite Hsch, Htrace. unfold expected_trace. rewrite countb_fmap. simpl.
    rewrite boundaries_up_to by done. by rewrite Z2Nat.id. }
  split; [done|]. split; [done|]. split.
  { rewrite Hsched, Hnum. by apply Z.div_le_mono. }
  split.
  - rewrite Hopt, Hsch, Htrace. apply inj_le, optim_le_sched.
  - intros Hfin. rewrite <- Hsched, Hopt, Hsch. f_equal.
    rewrite Htrace. unfold expected_trace. rewrite !countb_fmap. simpl.
    apply countb_ext. intros j _. rewrite Hfin. apply andb_true_r.
Qed.

Lemma updates_are_steps_over_accumulation_witness :
  exists log s,
    Fixture.fx_train_main Fixture.fx_accum_args Fixture.fx_probe_gpu = (log, Ok s)
    /\ TrainLora.num_training_steps s = 6
    /\ TrainLora.step (TrainLora.final s) = 6
    /\ TrainLora.sched_pos (TrainLora.final s) = 3
    /\ TrainLora.sched_pos (TrainLora.final s)
       = TrainLora.step (TrainLora.final s) / TrainLora.grad_accum Fixture.fx_accum_args.
Proof.
  eexists _, _. split; [vm_compute; reflexivity|].
  split; [reflexivity|]. split; [reflexivity|]. split; [reflexivity|].
  eapply (updates_are_steps_over_accumulation Fixture.fx_loads Fixture.fx_str
            Fixture.fx_DataLoader unit Fixture.fx_collate Fixture.fx_finite
            Fixture.fx_accum_args Fixture.fx_probe_gpu Fixture.fx_fs).
  - vm_compute. reflexivity.
  - reflexivity.
Defined.

(** X7. The adapter is saved exactly when the run completes: a run that
    raises, at start-up or while collating a batch in the middle of
    training, saves nothing; a run that returns has the save as the last
    thing it did. *)
Theorem adapter_saved_iff_run_completes
  (json_loads : string -> option json) (py_str : json -> string)
  (DataLoader : list Dataset.Sample -> Z -> result TrainLora.loader)
  (batch : Type) (collate : list Dataset.Sample -> result batch)
  (grads_finite : Z -> bool)
  (args : TrainLora.Args) (p : Config.probe) (fs : filesystem)
  (log : list TrainLora.action) (r : result TrainLora.summary) :
  TrainLora.main json_loads py_str DataLoader batch collate grads_finite args p fs
  = (log, r) ->
  (TrainLora.SaveAdapter ∈ log <-> exists s, r = Ok s)
  /\ (forall s, r = Ok s -> last log = Some TrainLora.SaveAdapter).
Proof.
  unfold TrainLora.main.
  destruct (Config.pick_device p) as [device amp_dtype].
  case_bool_decide; simpl.
  2:{ intros [= <- <-]. split; [|done]. split; [intros H0; by apply elem_of_nil in H0|].
      by intros [s [=]]. }
  destruct (Dataset.ProductCaptionDataset _ _ _ _) as [ds|e].
  2:{ intros [= <- <-]. split; [|done]. split; [|by intros [s [=]]].
      intros H0. by apply list_elem_of_singleton in H0. }
  destruct (DataLoader ds _) as [ld|e].
  2:{ intros [= <- <-]. split; [|done]. split; [|by intros [s [=]]].
      intros H0. apply elem_of_cons in H0 as [?|H0]; [done|].
      by apply list_elem_of_singleton in H0. }
  destruct (TrainLora.grad_accum args =? 0).
  { intros [= <- <-]. split; [|done]. split; [|by intros [s [=]]].
    intros H0. apply elem_of_cons in H0 as [?|H0]; [done|].
    by apply list_elem_of_singleton in H0. }
  destruct (TrainLora.for_epochs _ _ _ _ _ _ _ _) as [fl st].
  assert (Hno : TrainLora.SaveAdapter
                ∉ TrainLora.LoadModel :: TrainLora.LoadDataset
                  :: (TrainLora.MicroBatch <$> TrainLora.trace st)).
  { intros H0. apply elem_of_cons in H0 as [?|H0]; [done|].
    apply elem_of_cons in H0 as [?|H0]; [done|]. by apply save_not_micro_batch in H0. }
  destruct fl; intros [= <- <-].
  - rewrite !app_comm_cons. split; [|intros; apply last_snoc].
    split; [by eexists|]. intros _. apply elem_of_app. right. apply list_elem_of_here.
  - rewrite !app_comm_cons. split; [|intros; apply last_snoc].
    split; [by eexists|]. intros _. apply elem_of_app. right. apply list_elem_of_here.
  - split; [|done]. split; [done|]. by intros [s [=]].
Qed.

Lemma adapter_saved_iff_run_completes_witness :
  exists log s,
    Fixture.fx_train_main Fixture.fx_train_args Fixture.fx_probe_gpu = (log, Ok s)
    /\ (TrainLora.SaveAdapter ∈ log <-> exists s', Ok s = Ok s')
    /\ (forall s', Ok s = Ok s' -> last log = Some TrainLora.SaveAdapter).
Proof.
  eexists _, _. split; [vm_compute; reflexivity|].
  apply (adapter_saved_iff_run_completes Fixture.fx_loads Fixture.fx_str
           Fixture.fx_DataLoader unit Fixture.fx_collate Fixture.fx_finite
           Fixture.fx_train_args Fixture.fx_probe_gpu Fixture.fx_fs).
  vm_compute. reflexivity.
Defined.

(** X9. With [grad_accum = 0] no run processes a micro-batch or completes;
    when the device, the dataset and the loader are fine, the run raises
    [ZeroDivisionError], and it does so only after the model and the dataset
    were loaded. *)
Theorem zero_grad_accum_never_trains
  (json_loads : string -> option json) (py_str : json -> string)
  (DataLoader : list Dataset.Sample -> Z -> result TrainLora.loader)
  (batch : Type) (collate : list Dataset.Sample -> result batch)
  (grads_finite : Z -> bool)
  (args : TrainLora.Args) (p : Config.probe) (fs : filesystem)
  (log : list TrainLora.action) (r : result TrainLora.summary) :
  TrainLora.grad_accum args = 0 ->
  TrainLora.main json_loads py_str DataLoader batch collate grads_finite args p fs
  = (log, r) ->
  micro_batches log = []
  /\ (exists e, r = Raise e)
  /\ (forall ds ld,
        (Config.pick_device p).1 = Config.cuda ->
        Dataset.ProductCaptionDataset json_loads py_str fs (TrainLora.train_jsonl args)
        = Ok ds ->
        DataLoader ds (TrainLora.batch_size args) = Ok ld ->
        log = [TrainLora.LoadModel; TrainLora.LoadDataset] /\ r = Raise ZeroDivisionError).
Proof.
  intros HK. unfold TrainLora.main.
  destruct (Config.pick_device p) as [device amp_dtype].
  case_bool_decide as Hdev; simpl.
  2:{ intros [= <- <-]. split; [done|]. split; [by eexists|]. by intros ds ld Hc. }
  destruct (Dataset.ProductCaptionDataset _ _ _ _) as [ds|e].
  2:{ intros [= <- <-]. split; [done|]. split; [by eexists|]. by intros ds ld _ [=]. }
  destruct (DataLoader ds _) as [ld|e] eqn:Eld.
  2:{ intros [= <- <-]. split; [done|]. split; [by eexists|].
      intros ds' ld' _ [= <-] Hld'. congruence. }
  rewrite HK. simpl.
  intros [= <- <-]. split; [done|]. split; [by eexists|]. done.
Qed.

Lemma zero_grad_accum_never_trains_witness :
  TrainLora.grad_accum Fixture.fx_zero_accum_args = 0
  /\ Fixture.fx_train_main Fixture.fx_zero_accum_args Fixture.fx_probe_gpu
     = ([TrainLora.LoadModel; TrainLora.LoadDataset], Raise ZeroDivisionError)
  /\ micro_batches [TrainLora.LoadModel; TrainLora.LoadDataset] = []
  /\ (exists e, Raise ZeroDivisionError = @Raise TrainLora.summary e).
Proof.
  split; [reflexivity|]. split; [vm_compute; reflexivity|].
  pose proof (zero_grad_accum_never_trains Fixture.fx_loads Fixture.fx_str
                Fixture.fx_DataLoader unit Fixture.fx_collate Fixture.fx_finite
                Fixture.fx_zero_accum_args Fixture.fx_probe_gpu Fixture.fx_fs
                [TrainLora.LoadModel; TrainLora.LoadDataset] (Raise ZeroDivisionError)
                eq_refl) as H.
  destruct H as (H1 & H2 & _); [vm_compute; reflexivity|].
  split; [exact H1|exact H2].
Defined.

(** ** src/predict.py: more on batch and single-image inference *)

Section PredictLoopFacts.
Import Predict.
Variable json_loads : string -> option json.
Variable caption : string -> result string.
Variable fs : filesystem.

Local Abbreviation loop := (batch_loop json_loads caption fs).
Local Abbreviation outcome_of := (line_outcome json_loads caption fs).

(** One turn of the loop, by what the line leads to. *)
Lemma batch_loop_outcome lim line rest n preds :
  loop lim (line :: rest) n preds
  = match outcome_of line with
    | Skipped => loop lim rest n preds
    | NotFound r => loop lim rest n (preds ++ [r])
    | Captioned r =>
        if negb (lim =? 0) && (lim <=? n + 1) then Ok (preds ++ [r])
        else loop lim rest (n + 1) (preds ++ [r])
    | Failed e => Raise e
    end.
Proof.
  unfold line_outcome. simpl.
  destruct (str_empty (strip line)); [done|].
  unfold loads. destruct (json_loads (strip line)) as [row|]; [|done].
  destruct row as [|b|z|repr nz|s|l|m]; try done. simpl.
  destruct (default JNull (m !! "image_path")) as [|b|z|repr nz|s|l|m']; simpl; try done.
  - by destruct b.
  - by destruct (z =? 0).
  - by destruct nz.
  - destruct (String.eqb s ""); simpl; [done|].
    destruct (path_exists fs s); simpl; [|done].
    by destruct (caption s).
  - by destruct l.
  - by destruct (map_to_list m').
Qed.

(** How the outcome of a line relates to the line. *)
Lemma outcome_skipped line :
  outcome_of line = Skipped -> has_image_path json_loads line = false.
Proof.
  unfold line_outcome, has_image_path.
  destruct (str_empty (strip line)); [done|]. simpl.
  destruct (json_loads (strip line)) as [row|]; [|done].
  destruct row as [|b|z|repr nz|s|l|m]; try done.
  destruct (default JNull (m !! "image_path")) as [|b|z|repr nz|s|l|m']; simpl; try done.
  - by destruct b.
  - by destruct (z =? 0).
  - by destruct nz.
  - destruct (String.eqb s ""); simpl; [done|].
    destruct (path_exists fs s); [|done]. by destruct (caption s).
  - by destruct l.
  - by destruct (map_to_list m').
Qed.

Lemma outcome_record line r :
  outcome_of line = NotFound r \/ outcome_of line = Captioned r ->
  has_image_path json_loads line = true
  /\ exists m,
       json_loads (strip line) = Some (JObj m)
       /\ ((outcome_of line = NotFound r /\ r = not_found_record m)
           \/ (outcome_of line = Captioned r
               /\ exists pred s, r = captioned_record m pred /\ caption s = Ok pred)).
Proof.
  unfold line_outcome, has_image_path.
  destruct (str_empty (strip line)); [by intros [|]|]. simpl.
  destruct (json_loads (strip line)) as [row|]; [|by intros [|]].
  destruct row as [|b|z|repr nz|s|l|m]; try by intros [|].
  destruct (default JNull (m !! "image_path")) as [|b|z|repr nz|s|l|m']; simpl;
    try by intros [|].
  - destruct b; by intros [|].
  - destruct (z =? 0); by intros [|].
  - destruct nz; by intros [|].
  - destruct (String.eqb s ""); simpl; [by intros [|]|].
    destruct (path_exists fs s).
    + destruct (caption s) as [pred|e] eqn:Ecap; [|by intros [|]].
      intros [[=]|[= <-]]. split; [done|]. exists m. split; [done|].
      right. split; [done|]. by exists pred, s.
    + intros [[= <-]|[=]]. split; [done|]. exists m. split; [done|]. by left.
  - destruct l; by intros [|].
  - destruct (map_to_list m'); by intros [|].
Qed.

Lemma outcome_not_found_kind line r :
  outcome_of line = NotFound r ->
  is_success_record r = false /\ has_image_path json_loads line = true.
Proof.
  intros H. destruct (outcome_record line r (or_introl H))
    as (Hhas & m & _ & [[_ ->]|[H' _]]); [|congruence].
  split; [|done]. by destruct (not_found_record_kind m) as (_ & _ & ->).
Qed.

Lemma outcome_captioned_kind line r :
  outcome_of line = Captioned r ->
  is_success_record r = true /\ has_image_path json_loads line = true.
Proof.
  intros H. destruct (outcome_record line r (or_intror H))
    as (Hhas & m & _ & [[H' _]|[_ (pred & s & -> & _)]]); [congruence|].
  split; [|done]. by destruct (captioned_record_kind m pred) as (_ & _ & ->).
Qed.

(** The output of a completed loop, split off what was there before. *)
Lemma batch_loop_extends lim lines n preds r new :
  loop lim lines n (preds ++ [r]) = Ok (preds ++ new) ->
  exists new',
    new = r :: new'
    /\ loop lim lines n (preds ++ [r]) = Ok ((preds ++ [r]) ++ new').
Proof.
  intros Hrun. destruct (batch_loop_emits _ _ _ _ _ _ _ _ Hrun) as (new0 & Hout & _).
  rewrite <- app_assoc in Hout. apply app_inv_head in Hout. simpl in Hout.
  exists new0. split; [done|]. rewrite Hrun, Hout. by rewrite <- app_assoc.
Qed.

(** As long as the limit is not hit, every row with an [image_path] adds
    one record. *)
Lemma batch_loop_unlimited lim lines n preds new :
  loop lim lines n preds = Ok (preds ++ new) ->
  lim = 0 \/ n + Z.of_nat (countb is_success_record new) < lim ->
  length new = countb (has_image_path json_loads) lines.
Proof.
  revert n preds new. induction lines as [|line rest IH]; intros n preds new.
  - simpl. intros [= H] _. rewrite <- (app_nil_r preds) in H at 1.
    by apply app_inv_head in H as <-.
  - rewrite batch_loop_outcome. cbn [countb].
    destruct (outcome_of line) as [|r|r|e] eqn:Eo.
    + rewrite (outcome_skipped line Eo). intros Hrun Hlim. simpl. by apply (IH n preds).
    + destruct (outcome_not_found_kind line r Eo) as [Hs ->].
      intros Hrun Hlim.
      destruct (batch_loop_extends _ _ _ _ _ _ Hrun) as (new' & -> & Hrun').
      cbn [countb length] in *. rewrite Hs in Hlim.
      rewrite (IH n (preds ++ [r]) new' Hrun'); [done|lia].
    + destruct (outcome_captioned_kind line r Eo) as [Hs ->].
      destruct (negb (lim =? 0) && (lim <=? n + 1)) eqn:Hbreak.
      * intros [= H] Hlim. apply app_inv_head in H as <-.
        cbn [countb] in Hlim. rewrite Hs in Hlim.
        apply andb_true_iff in Hbreak as [Hz Hle].
        apply negb_true_iff, Z.eqb_neq in Hz. apply Z.leb_le in Hle. lia.
      * intros Hrun Hlim.
        destruct (batch_loop_extends _ _ _ _ _ _ Hrun) as (new' & -> & Hrun').
        cbn [countb length] in *. rewrite Hs in Hlim.
        rewrite (IH (n + 1) (preds ++ [r]) new' Hrun'); [done|lia].
    + done.
Qed.

(** Every record of the output stems from a row of the file. *)
Lemma batch_loop_provenance lim lines n preds new r :
  loop lim lines n preds = Ok (preds ++ new) ->
  r ∈ new ->
  exists line m,
    line ∈ lines
    /\ json_loads (strip line) = Some (JObj m)
    /\ (r = not_found_record m
        \/ exists pred s, r = captioned_record m pred /\ caption s = Ok pred).
Proof.
  revert n preds new. induction lines as [|line rest IH]; intros n preds new.
  - simpl. intros [= H]. rewrite <- (app_nil_r preds) in H at 1.
    apply app_inv_head in H as <-. intros Hr. by apply elem_of_nil in Hr.
  - rewrite batch_loop_outcome.
    assert (Hrest : forall n' preds' new',
              loop lim rest n' preds' = Ok (preds' ++ new') -> r ∈ new' ->
              exists line' m,
                line' ∈ line :: rest
                /\ json_loads (strip line') = Some (JObj m)
                /\ (r = not_found_record m
                    \/ exists pred s, r = captioned_record m pred /\ caption s = Ok pred)).
    { intros n' preds' new' Hrun Hr.
      destruct (IH _ _ _ Hrun Hr) as (line' & m & Hin & Hm & Hk).
      exists line', m. split; [by apply list_elem_of_further|done]. }
    assert (Hhere : forall r',
              outcome_of line = NotFound r' \/ outcome_of line = Captioned r' ->
              r = r' ->
              exists line' m,
                line' ∈ line :: rest
                /\ json_loads (strip line') = Some (JObj m)
                /\ (r = not_found_record m
                    \/ exists pred s, r = captioned_record m pred /\ caption s = Ok pred)).
    { intros r' Ho ->.
      destruct (outcome_record line r' Ho)
        as (_ & m & Hm & [[_ ->]|[_ (pred & s & -> & Hcap)]]).
      - exists line, m. split; [apply list_elem_of_here|]. split; [done|by left].
      - exists line, m. split; [apply list_elem_of_here|]. split; [done|].
        right. by exists pred, s. }
    destruct (outcome_of line) as [|r'|r'|e] eqn:Eo.
    + by apply Hrest.
    + intros Hrun Hr.
      destruct (batch_loop_extends _ _ _ _ _ _ Hrun) as (new' & -> & Hrun').
      apply elem_of_cons in Hr as [->|Hr]; [by apply (Hhere r'); [left|]|].
      by apply (Hrest _ _ _ Hrun').
    + destruct (negb (lim =? 0) && (lim <=? n + 1)).
      * intros [= H] Hr. apply app_inv_head in H as <-.
        apply list_elem_of_singleton in Hr as ->. by apply (Hhere r'); [right|].
      * intros Hrun Hr.
        destruct (batch_loop_extends _ _ _ _ _ _ Hrun) as (new' & -> & Hrun').
        apply elem_of_cons in Hr as [->|Hr]; [by apply (Hhere r'); [right|]|].
        by apply (Hrest _ _ _ Hrun').
    + done.
Qed.

(** Once the limit is hit, what follows in the file is not looked at. *)
Lemma batch_loop_limit_hit lim l1 l2 n preds new :
  0 < lim -> n < lim ->
  loop lim l1 n preds = Ok (preds ++ new) ->
  n + Z.of_nat (countb is_success_record new) = lim ->
  loop lim (l1 ++ l2) n preds = Ok (preds ++ new).
Proof.
  intros Hlim. revert n preds new. induction l1 as [|line rest IH]; intros n preds new Hn.
  - simpl. intros [= H]. rewrite <- (app_nil_r preds) in H at 1.
    apply app_inv_head in H as <-. simpl. lia.
  - rewrite <- app_comm_cons, !batch_loop_outcome.
    destruct (outcome_of line) as [|r|r|e] eqn:Eo.
    + by apply IH.
    + destruct (outcome_not_found_kind line r Eo) as [Hs _].
      intros Hrun Hcount.
      destruct (batch_loop_extends _ _ _ _ _ _ Hrun) as (new' & -> & Hrun').
      replace (preds ++ r :: new') with ((preds ++ [r]) ++ new')
        by (by rewrite <- app_assoc).
      cbn [countb] in Hcount. rewrite Hs in Hcount.
      apply IH; [done|done|lia].
    + destruct (outcome_captioned_kind line r Eo) as [Hs _].
      destruct (negb (lim =? 0) && (lim <=? n + 1)) eqn:Hbreak; [done|].
      intros Hrun Hcount.
      destruct (batch_loop_extends _ _ _ _ _ _ Hrun) as (new' & -> & Hrun').
      replace (preds ++ r :: new') with ((preds ++ [r]) ++ new')
        by (by rewrite <- app_assoc).
      cbn [countb] in Hcount. rewrite Hs in Hcount.
      apply andb_false_iff in Hbreak as [Hz|Hle].
      { apply negb_false_iff, Z.eqb_eq in Hz. lia. }
      apply Z.leb_gt in Hle.
      apply IH; [lia|done|lia].
    + done.
Qed.

(** With a negative limit the first caption ends the loop. *)
Lemma batch_loop_negative_limit lim lines n preds new :
  lim < 0 -> 0 <= n ->
  loop lim lines n preds = Ok (preds ++ new) ->
  (countb is_success_record new <= 1)%nat
  /\ forall pre r post,
       new = pre ++ r :: post -> is_success_record r = true -> post = [].
Proof.
  intros Hlim. revert n preds new. induction lines as [|line rest IH]; intros n preds new Hn.
  - simpl. intros [= H]. rewrite <- (app_nil_r preds) in H at 1.
    apply app_inv_head in H as <-. split; [simpl; lia|].
    intros pre r post H. by destruct pre.
  - rewrite batch_loop_outcome.
    destruct (outcome_of line) as [|r|r|e] eqn:Eo.
    + by apply IH.
    + destruct (outcome_not_found_kind line r Eo) as [Hs _].
      intros Hrun.
      destruct (batch_loop_extends _ _ _ _ _ _ Hrun) as (new' & -> & Hrun').
      destruct (IH n (preds ++ [r]) new' Hn Hrun') as [Hc Hlast].
      split; [cbn [countb]; rewrite Hs; lia|].
      intros pre r0 post Hsplit Hr0.
      destruct pre as [|x pre]; simpl in Hsplit; injection Hsplit as <- Hsplit.
      * congruence.
      * by apply (Hlast pre r0 post).
    + destruct (outcome_captioned_kind line r Eo) as [Hs _].
      assert (Hbreak : negb (lim =? 0) && (lim <=? n + 1) = true).
      { apply andb_true_iff. split.
        - apply negb_true_iff, Z.eqb_neq. lia.
        - apply Z.leb_le. lia. }
      rewrite Hbreak. intros [= H]. apply app_inv_head in H as <-.
      split; [cbn [countb]; rewrite Hs; lia|].
      intros pre r0 post Hsplit _.
      destruct pre as [|x pre]; simpl in Hsplit; injection Hsplit as _ Hsplit;
        [done|by destruct pre].
    + done.
Qed.

End PredictLoopFacts.

Lemma record_keeps_row_fields (m : gmap string json) (r : json) (key : string) :
  (r = Predict.not_found_record m \/ exists pred, r = Predict.captioned_record m pred) ->
  key <> "pred_text" -> key <> "error" ->
  Predict.field r key = m !! key.
Proof.
  intros [->|[pred ->]] H1 H2; unfold Predict.field; simpl;
    by rewrite !lookup_insert_ne.
Qed.

(** X10. As long as the limit is not reached (limit 0, or fewer captions
    than the limit), batch inference writes exactly one record for each row
    of the file that has an [image_path]. *)
Theorem batch_writes_one_record_per_row_with_image
  (json_loads : string -> option json) (caption : string -> result string)
  (fs : filesystem) (lim : Z) (lines : list string) (out : list json) :
  Predict.batch_loop json_loads caption fs lim lines 0 [] = Ok out ->
  lim = 0 \/ Z.of_nat (countb Predict.is_success_record out) < lim ->
  length out = countb (Predict.has_image_path json_loads) lines.
Proof.
  intros Hrun Hlim.
  apply (batch_loop_unlimited json_loads caption fs lim lines 0 [] out Hrun).
  destruct Hlim; [by left|right; lia].
Qed.

Lemma batch_writes_one_record_per_row_with_image_witness :
  exists out,
    Predict.batch_loop Fixture.fx_loads Fixture.fx_caption Fixture.fx_fs 0
      Fixture.infer_lines 0 [] = Ok out
    /\ countb (Predict.has_image_path Fixture.fx_loads) Fixture.infer_lines = 3%nat
    /\ length out = countb (Predict.has_image_path Fixture.fx_loads) Fixture.infer_lines.
Proof.
  eexists. split; [vm_compute; reflexivity|]. split; [vm_compute; reflexivity|].
  apply (batch_writes_one_record_per_row_with_image Fixture.fx_loads Fixture.fx_caption
           Fixture.fx_fs 0 Fixture.infer_lines).
  - vm_compute. reflexivity.
  - left. reflexivity.
Defined.

(** X11. Every record that batch inference writes stems from a row of the
    input file: it has that row's value under every key other than
    [pred_text] and [error], and it has both of these keys. *)
Theorem batch_records_carry_row_fields
  (json_loads : string -> option json) (caption : string -> result string)
  (fs : filesystem) (lim : Z) (lines : list string) (out : list json) (r : json) :
  Predict.batch_loop json_loads caption fs lim lines 0 [] = Ok out ->
  r ∈ out ->
  exists line m,
    line ∈ lines
    /\ json_loads (strip line) = Some (JObj m)
    /\ (forall key, key <> "pred_text" -> key <> "error" -> Predict.field r key = m !! key)
    /\ is_Some (Predict.field r "pred_text")
    /\ is_Some (Predict.field r "error").
Proof.
  intros Hrun Hr.
  destruct (batch_loop_provenance json_loads caption fs lim lines 0 [] out r Hrun Hr)
    as (line & m & Hin & Hm & Hkind).
  exists line, m. split; [done|]. split; [done|]. split.
  - intros key H1 H2. apply record_keeps_row_fields; [|done..].
    destruct Hkind as [->|(pred & s & -> & _)]; [by left|right; by exists pred].
  - destruct Hkind as [->|(pred & s & -> & _)].
    + destruct (not_found_record_fields m) as [-> ->]. split; by eexists.
    + destruct (captioned_record_fields m pred) as [-> ->]. split; by eexists.
Qed.

Lemma batch_records_carry_row_fields_witness :
  exists out r,
    Predict.batch_loop Fixture.fx_loads Fixture.fx_caption Fixture.fx_fs 0
      ["shoe"] 0 [] = Ok out
    /\ out = [r]
    /\ Predict.field r "text" = Some (JStr "red shoe")
    /\ exists line m,
         line ∈ ["shoe"]
         /\ Fixture.fx_loads (strip line) = Some (JObj m)
         /\ (forall key, key <> "pred_text" -> key <> "error" ->
               Predict.field r key = m !! key)
         /\ is_Some (Predict.field r "pred_text")
         /\ is_Some (Predict.field r "error").
Proof.
  eexists _, _. split; [vm_compute; reflexivity|]. split; [reflexivity|].
  split; [vm_compute; reflexivity|].
  eapply (batch_records_carry_row_fields Fixture.fx_loads Fixture.fx_caption
            Fixture.fx_fs 0 ["shoe"]).
  - vm_compute. reflexivity.
  - apply list_elem_of_here.
Defined.

(** X12. Once the limit-th caption has been produced the rest of the file
    is never read: whatever lines follow, be they unparsable, the output is
    the same. *)
Theorem lines_after_the_limit_are_not_read
  (json_loads : string -> option json) (caption : string -> result string)
  (fs : filesystem) (lim : Z) (l1 l2 : list string) (out : list json) :
  0 < lim ->
  Predict.batch_loop json_loads caption fs lim l1 0 [] = Ok out ->
  Z.of_nat (countb Predict.is_success_record out) = lim ->
  Predict.batch_loop json_loads caption fs lim (l1 ++ l2) 0 [] = Ok out.
Proof.
  intros Hlim Hrun Hcount.
  apply (batch_loop_limit_hit json_loads caption fs lim l1 l2 0 [] out); done || lia.
Qed.

Lemma lines_after_the_limit_are_not_read_witness :
  (forall e, Fixture.fx_loads (strip "{oops") <> Some e)
  /\ Predict.batch_loop Fixture.fx_loads Fixture.fx_caption Fixture.fx_fs 0
       (["hat"; "shoe"] ++ ["{oops"]) 0 [] = Raise JSONDecodeError
  /\ Predict.batch_loop Fixture.fx_loads Fixture.fx_caption Fixture.fx_fs 1
       (["hat"; "shoe"] ++ ["{oops"]) 0 []
     = Predict.batch_loop Fixture.fx_loads Fixture.fx_caption Fixture.fx_fs 1
         ["hat"; "shoe"] 0 [].
Proof.
  split; [intros e; vm_compute; discriminate|].
  split; [vm_compute; reflexivity|].
  transitivity (Ok [ Predict.not_found_record
                       (list_to_map [("image_path", JStr "hat.jpg");
                                     ("text", JStr "straw hat")]);
                     Predict.captioned_record
                       (list_to_map [("image_path", JStr "shoe.jpg");
                                     ("text", JStr "red shoe")])
                       "a photo of shoe.jpg" ] : result (list json));
    [|vm_compute; reflexivity].
  apply (lines_after_the_limit_are_not_read Fixture.fx_loads Fixture.fx_caption
           Fixture.fx_fs 1 ["hat"; "shoe"] ["{oops"]).
  - reflexivity.
  - vm_compute. reflexivity.
  - vm_compute. reflexivity.
Defined.

(** X13. A negative limit is not "no limit": the loop stops at the first
    caption, so the output holds at most one captioned record, and nothing
    comes after it. *)
Theorem negative_limit_stops_at_first_caption
  (json_loads : string -> option json) (caption : string -> result string)
  (fs : filesystem) (lim : Z) (lines : list string) (out : list json) :
  lim < 0 ->
  Predict.batch_loop json_loads caption fs lim lines 0 [] = Ok out ->
  (countb Predict.is_success_record out <= 1)%nat
  /\ forall pre r post,
       out = pre ++ r :: post -> Predict.is_success_record r = true -> post = [].
Proof.
  intros Hlim Hrun.
  by apply (batch_loop_negative_limit json_loads caption fs lim lines 0 [] out).
Qed.

Lemma negative_limit_stops_at_first_caption_witness :
  -1 < 0
  /\ exists out,
       Predict.batch_loop Fixture.fx_loads Fixture.fx_caption Fixture.fx_fs (-1)
         Fixture.infer_lines 0 [] = Ok out
       /\ length out = 2%nat
       /\ (countb Predict.is_success_record out <= 1)%nat
       /\ forall pre r post,
            out = pre ++ r :: post -> Predict.is_success_record r = true -> post = [].
Proof.
  split; [reflexivity|].
  eexists. split; [vm_compute; reflexivity|]. split; [reflexivity|].
  apply (negative_limit_stops_at_first_caption Fixture.fx_loads Fixture.fx_caption
           Fixture.fx_fs (-1) Fixture.infer_lines).
  - reflexivity.
  - vm_compute. reflexivity.
Defined.

(** X14. Only a missing image file is recorded as data.  When the image
    exists and the captioner raises, the exception leaves the loop at once,
    whatever was collected so far and whatever follows, and batch mode then
    returns that exception: no output is written. *)
Theorem caption_failure_aborts_the_batch
  (json_loads : string -> option json) (caption : string -> result string)
  (fs : filesystem) :
  (forall lim line rest n preds m s e,
     str_empty (strip line) = false ->
     json_loads (strip line) = Some (JObj m) ->
     m !! "image_path" = Some (JStr s) ->
     s <> "" ->
     path_exists fs s = true ->
     caption s = Raise e ->
     Predict.batch_loop json_loads caption fs lim (line :: rest) n preds = Raise e)
  /\ (forall args in_path lines e,
        Predict.image args = None ->
        Predict.jsonl args = Some in_path ->
        fs in_path = Some lines ->
        Predict.batch_loop json_loads caption fs (Predict.limit args) lines 0 [] = Raise e ->
        Predict.main json_loads caption fs args = Raise e).
Proof.
  split.
  - intros lim line rest n preds m s e Hne Hrow Hip Hs Hex Hcap.
    simpl. rewrite Hne. unfold Predict.loads. rewrite Hrow. simpl. rewrite Hip. simpl.
    destruct (String.eqb_spec s ""); [done|]. simpl. rewrite Hex. simpl. by rewrite Hcap.
  - intros args in_path lines e Himg Hjs Hfs Hloop.
    unfold Predict.main, Predict.batch_mode. by rewrite Himg, Hjs, Hfs, Hloop.
Qed.

Lemma caption_failure_aborts_the_batch_witness :
  Predict.batch_loop Fixture.fx_loads Fixture.fx_failing_caption Fixture.fx_fs 0
    ("shoe" :: ["bag"]) 0 [] = Raise (LibraryError "cannot identify image file").
Proof.
  apply (proj1 (caption_failure_aborts_the_batch Fixture.fx_loads
                  Fixture.fx_failing_caption Fixture.fx_fs)
           0 "shoe" ["bag"] 0 []
           (list_to_map [("image_path", JStr "shoe.jpg"); ("text", JStr "red shoe")])
           "shoe.jpg").
  - reflexivity.
  - vm_compute. reflexivity.
  - vm_compute. reflexivity.
  - discriminate.
  - reflexivity.
  - reflexivity.
Defined.

(** X15. Batch inference is not permissive about the shape of a row: a
    non-blank line that does not parse raises [JSONDecodeError], a row that
    is not a JSON object raises [AttributeError], and an [image_path] that is
    set but is not a string raises [TypeError]; each ends the loop. *)
Theorem batch_rejects_ill_shaped_rows
  (json_loads : string -> option json) (caption : string -> result string)
  (fs : filesystem) (lim : Z) (line : string) (rest : list string)
  (n : Z) (preds : list json) :
  str_empty (strip line) = false ->
  (json_loads (strip line) = None ->
   Predict.batch_loop json_loads caption fs lim (line :: rest) n preds
   = Raise JSONDecodeError)
  /\ (forall v,
        json_loads (strip line) = Some v -> (forall m, v <> JObj m) ->
        Predict.batch_loop json_loads caption fs lim (line :: rest) n preds
        = Raise AttributeError)
  /\ (forall m v,
        json_loads (strip line) = Some (JObj m) ->
        m !! "image_path" = Some v -> truthy v = true -> (forall s, v <> JStr s) ->
        Predict.batch_loop json_loads caption fs lim (line :: rest) n preds
        = Raise TypeError).
Proof.
  intros Hne. split; [|split].
  - intros Hrow. simpl. rewrite Hne. unfold Predict.loads. by rewrite Hrow.
  - intros v Hrow Hv. simpl. rewrite Hne. unfold Predict.loads. rewrite Hrow. simpl.
    destruct v as [| | | | | |m]; try done. by destruct (Hv m).
  - intros m v Hrow Hip Htr Hv. simpl. rewrite Hne. unfold Predict.loads.
    rewrite Hrow. simpl. rewrite Hip. simpl. rewrite Htr. simpl.
    destruct v as [| | | |s| |]; try done. by destruct (Hv s).
Qed.

Lemma batch_rejects_ill_shaped_rows_witness :
  str_empty (strip "number") = false
  /\ Predict.batch_loop Fixture.fx_loads Fixture.fx_caption Fixture.fx_fs 0
       ("number" :: ["shoe"]) 0 [] = Raise AttributeError.
Proof.
  split; [reflexivity|].
  apply (proj1 (proj2 (batch_rejects_ill_shaped_rows Fixture.fx_loads Fixture.fx_caption
                         Fixture.fx_fs 0 "number" ["shoe"] 0 [] eq_refl)) (JInt 7)).
  - reflexivity.
  - discriminate.
Defined.



(** ** src/evaluate.py: more on the collection loop and the reports *)

Section CollectFacts.
Import Evaluate.
Variable json_loads : string -> option json.
Variable py_str : json -> string.

(** The three lists grow together. *)
Lemma collect_aligned lines acc acc' :
  collect json_loads py_str lines acc = Ok acc' ->
  (fun t => t.2) <$> c_samples acc = c_preds acc ->
  (fun t => t.1.2) <$> c_samples acc = c_refs acc ->
  (fun t => t.2) <$> c_samples acc' = c_preds acc'
  /\ (fun t => t.1.2) <$> c_samples acc' = c_refs acc'.
Proof.
  revert acc. induction lines as [|line rest IH]; intros acc.
  - by intros [= <-].
  - simpl. destruct (str_empty (strip line)); [by apply IH|].
    unfold loads. destruct (json_loads (strip line)) as [row|]; [|done].
    destruct row as [| | | | | |m]; try done. simpl.
    destruct (negb (is_None (default JNull (m !! "error")))); [by apply IH|].
    destruct (negb (truthy (default JNull (m !! "text")))
              || negb (truthy (default JNull (m !! "pred_text")))); [by apply IH|].
    intros Hrun Hp Hr. apply (IH _ Hrun); simpl; rewrite fmap_app; simpl;
      by rewrite ?Hp, ?Hr.
Qed.

End CollectFacts.

(** X17. The references and predictions handed to the metric libraries
    always line up: the loop ends with as many references as predictions,
    and the [i]-th sample triple holds the [i]-th reference and the [i]-th
    prediction. *)
Theorem collected_lists_line_up
  (json_loads : string -> option json) (py_str : json -> string)
  (lines : list string) (acc : Evaluate.collected) :
  Evaluate.collect json_loads py_str lines
    {| Evaluate.c_preds := []; Evaluate.c_refs := []; Evaluate.c_samples := [] |}
  = Ok acc ->
  length (Evaluate.c_refs acc) = length (Evaluate.c_preds acc)
  /\ length (Evaluate.c_samples acc) = length (Evaluate.c_preds acc)
  /\ forall i img ref pred,
       Evaluate.c_samples acc !! i = Some (img, ref, pred) ->
       Evaluate.c_refs acc !! i = Some ref /\ Evaluate.c_preds acc !! i = Some pred.
Proof.
  intros Hrun.
  destruct (collect_aligned json_loads py_str lines _ acc Hrun eq_refl eq_refl) as [Hp Hr].
  split; [by rewrite <- Hr, <- Hp, !length_fmap|].
  split; [by rewrite <- Hp, length_fmap|].
  intros i img ref pred Hi. rewrite <- Hr, <- Hp, !list_lookup_fmap, Hi. done.
Qed.

Lemma collected_lists_line_up_witness :
  exists acc,
    Evaluate.collect Fixture.fx_loads Fixture.fx_str Fixture.preds_lines
      {| Evaluate.c_preds := []; Evaluate.c_refs := []; Evaluate.c_samples := [] |}
    = Ok acc
    /\ Evaluate.c_refs acc = ["red shoe"; "leather bag"]
    /\ Evaluate.c_preds acc = ["a red shoe"; "a bag"]
    /\ length (Evaluate.c_refs acc) = length (Evaluate.c_preds acc)
    /\ length (Evaluate.c_samples acc) = length (Evaluate.c_preds acc)
    /\ forall i img ref pred,
         Evaluate.c_samples acc !! i = Some (img, ref, pred) ->
         Evaluate.c_refs acc !! i = Some ref /\ Evaluate.c_preds acc !! i = Some pred.
Proof.
  eexists. split; [vm_compute; reflexivity|].
  split; [reflexivity|]. split; [reflexivity|].
  apply (collected_lists_line_up Fixture.fx_loads Fixture.fx_str Fixture.preds_lines).
  vm_compute. reflexivity.
Defined.

Lemma slice_to_length {A} (xs : list A) (limit : Z) :
  Z.of_nat (length (slice_to xs limit))
  = if 0 <=? limit then Z.min limit (Z.of_nat (length xs))
    else Z.max 0 (Z.of_nat (length xs) + limit).
Proof.
  unfold slice_to. destruct (Z.leb_spec 0 limit); rewrite length_take; lia.
Qed.

(** ** From inference to evaluation *)

Lemma countb_le_pointwise {A} (p q : A -> bool) (l : list A) :
  (forall x, x ∈ l -> p x = true -> q x = true) ->
  (countb p l <= countb q l)%nat.
Proof.
  induction l as [|x l IH]; intros H; simpl; [done|].
  assert (IH' : (countb p l <= countb q l)%nat).
  { apply IH. intros y Hy. apply H. by apply list_elem_of_further. }
  destruct (p x) eqn:Ep.
  - rewrite (H x (list_elem_of_here _ _) Ep). lia.
  - destruct (q x); lia.
Qed.

Lemma not_found_record_not_counted (m m' : gmap string json) :
  Predict.not_found_record m = JObj m' -> Evaluate.counted m' = false.
Proof.
  intros [= <-]. unfold Evaluate.counted, Evaluate.error_row.
  by rewrite lookup_insert_eq.
Qed.

Lemma captioned_record_counted (m m' : gmap string json) (pred : string) :
  Predict.captioned_record m pred = JObj m' ->
  Evaluate.counted m'
  = truthy (default JNull (m !! "text")) && negb (String.eqb pred "").
Proof.
  intros [= <-]. unfold Evaluate.counted, Evaluate.error_row, Evaluate.valid_pair.
  rewrite lookup_insert_eq. simpl.
  rewrite !(lookup_insert_ne _ "error") by done.
  rewrite lookup_insert_eq, lookup_insert_ne by done. done.
Qed.

(** X19. Feeding the records written by batch inference to the evaluation
    loop: a record of a missing image is never counted; a captioned record
    is counted exactly when its row has a non-empty [text] and the caption
    is not the empty string.  So the evaluation counts at most as many rows
    as there are captioned records. *)
Theorem evaluation_counts_only_captioned_records
  (json_loads : string -> option json) (caption : string -> result string)
  (fs : filesystem) (lim : Z) (lines : list string)
  (out : list json) (objs : list (gmap string json)) :
  Predict.batch_loop json_loads caption fs lim lines 0 [] = Ok out ->
  out = JObj <$> objs ->
  (forall m', m' ∈ objs -> Predict.is_error_record (JObj m') = true ->
     Evaluate.counted m' = false)
  /\ (forall m', m' ∈ objs -> Predict.field (JObj m') "pred_text" = Some (JStr "") ->
        Evaluate.counted m' = false)
  /\ (countb Evaluate.counted objs <= countb Predict.is_success_record out)%nat.
Proof.
  intros Hrun ->.
  apply batch_loop_emits in Hrun as (new & Hout & Hkinds & _). simpl in Hout.
  subst new. rewrite Forall_forall in Hkinds.
  assert (Hkind : forall m', m' ∈ objs ->
            (exists m, Predict.not_found_record m = JObj m')
            \/ (exists m pred, Predict.captioned_record m pred = JObj m')).
  { intros m' Hm'.
    destruct (Hkinds (JObj m')) as [m [H|[pred H]]].
    - by apply (list_elem_of_fmap_2 JObj).
    - left. by exists m.
    - right. by exists m, pred. }
  split; [|split].
  - intros m' Hm' Herr. destruct (Hkind m' Hm') as [[m H]|(m & pred & H)].
    + by apply not_found_record_not_counted with m.
    + rewrite <- H in Herr.
      destruct (captioned_record_kind m pred) as (_ & He & _). congruence.
  - intros m' Hm' Hpred. destruct (Hkind m' Hm') as [[m H]|(m & pred & H)].
    + by apply not_found_record_not_counted with m.
    + rewrite (captioned_record_counted m m' pred H).
      rewrite <- H in Hpred.
      destruct (captioned_record_fields m pred) as [Hf _]. rewrite Hf in Hpred.
      injection Hpred as ->. apply andb_false_r.
  - rewrite countb_fmap. apply countb_le_pointwise.
    intros m' Hm' Hc. destruct (Hkind m' Hm') as [[m H]|(m & pred & H)].
    + rewrite (not_found_record_not_counted m m' H) in Hc. done.
    + rewrite <- H. by destruct (captioned_record_kind m pred) as (_ & _ & ->).
Qed.

Lemma evaluation_counts_only_captioned_records_witness :
  exists out objs,
    Predict.batch_loop Fixture.fx_loads Fixture.fx_caption Fixture.fx_fs 0
      Fixture.infer_lines 0 [] = Ok out
    /\ out = JObj <$> objs
    /\ countb Evaluate.counted objs = 2%nat
    /\ (countb Evaluate.counted objs <= countb Predict.is_success_record out)%nat.
Proof.
  eexists _, [_; _; _]. split; [vm_compute; reflexivity|]. split; [reflexivity|].
  split; [vm_compute; reflexivity|].
  eapply (evaluation_counts_only_captioned_records Fixture.fx_loads Fixture.fx_caption
            Fixture.fx_fs 0 Fixture.infer_lines).
  - vm_compute. reflexivity.
  - reflexivity.
Defined.

(** ** src/model_wrapper.py *)

Lemma rstrip_idem (s : string) : rstrip (rstrip s) = rstrip s.
Proof.
  induction s as [|c s IH]; [done|].
  cbn [rstrip]. destruct (rstrip s) as [|c' r] eqn:E.
  - destruct (isspace c) eqn:Ec; [done|]. cbn [rstrip]. by rewrite Ec.
  - cbn [rstrip]. cbn [rstrip] in IH. by rewrite IH.
Qed.

Lemma rstrip_keeps_head (c : Ascii.ascii) (s : string) :
  isspace c = false -> exists r, rstrip (String c s) = String c r.
Proof.
  intros Hc. cbn [rstrip]. destruct (rstrip s) as [|c' r].
  - rewrite Hc. by eexists.
  - by eexists.
Qed.

Lemma lstrip_head (s : string) :
  lstrip s = EmptyString
  \/ exists c r, lstrip s = String c r /\ isspace c = false.
Proof.
  induction s as [|c s IH]; [by left|].
  cbn [lstrip]. destruct (isspace c) eqn:Ec; [done|]. right. by exists c, s.
Qed.

Lemma strip_head (s : string) :
  strip s = EmptyString
  \/ exists c r, strip s = String c r /\ isspace c = false.
Proof.
  unfold strip. destruct (lstrip_head s) as [->|(c & r & -> & Hc)]; [by left|].
  right. destruct (rstrip_keeps_head c r Hc) as [r' ->]. by exists c, r'.
Qed.

Lemma strip_idem (s : string) : strip (strip s) = strip s.
Proof.
  destruct (strip_head s) as [->|(c & r & E & Hc)]; [done|].
  rewrite E. unfold strip at 1. cbn [lstrip]. rewrite Hc.
  rewrite <- E. unfold strip. apply rstrip_idem.
Qed.

(** X20. A captioner built from the device probe runs generation inside
    autocast exactly when cuda or mps is available; the test on the dtype in
    [caption] never changes the outcome. *)
Theorem captioner_autocast_iff_accelerator (p : Config.probe) :
  ModelWrapper.use_amp (ModelWrapper.init p)
  = Config.cuda_is_available p || Config.mps_is_available p
  /\ ModelWrapper.use_amp (ModelWrapper.init p)
     = negb (bool_decide (ModelWrapper.device (ModelWrapper.init p) = Config.cpu)).
Proof.
  unfold ModelWrapper.use_amp, ModelWrapper.init, Config.pick_device.
  by destruct (Config.cuda_is_available p), (Config.mps_is_available p).
Qed.

(** X21. A caption that is returned is stripped: it is empty or starts with
    a non-blank character, and stripping it again changes nothing.  When the
    image cannot be opened the caption call raises that very error. *)
Theorem caption_is_stripped
  (image tokens : Type)
  (open_rgb : string -> result image)
  (generate : bool -> image -> Z -> Z -> result tokens)
  (decode : tokens -> string)
  (self : ModelWrapper.BlipCaptioner) (image_path : string)
  (max_new_tokens num_beams : Z) :
  (forall text,
     ModelWrapper.caption image tokens open_rgb generate decode self image_path
       max_new_tokens num_beams = Ok text ->
     strip text = text
     /\ (text = EmptyString \/ exists c r, text = String c r /\ isspace c = false))
  /\ (forall e,
        open_rgb image_path = Raise e ->
        ModelWrapper.caption image tokens open_rgb generate decode self image_path
          max_new_tokens num_beams = Raise e).
Proof.
  unfold ModelWrapper.caption. split.
  - intros text. destruct (open_rgb image_path) as [img|e]; [|done]. simpl.
    destruct (generate _ img _ _) as [out|e]; [|done]. simpl.
    intros [= <-]. split; [apply strip_idem|apply strip_head].
  - intros e ->. done.
Qed.

Lemma caption_is_stripped_witness :
  ModelWrapper.caption unit string Fixture.fx_open_rgb Fixture.fx_generate (fun t => t)
    (ModelWrapper.init Fixture.fx_probe_cpu) "shoe.jpg" 40 3 = Ok "a shoe"
  /\ strip "a shoe" = "a shoe"
  /\ ModelWrapper.caption unit string Fixture.fx_open_rgb Fixture.fx_generate (fun t => t)
       (ModelWrapper.init Fixture.fx_probe_cpu) "hat.jpg" 40 3 = Raise FileNotFoundError.
Proof.
  split; [vm_compute; reflexivity|]. split.
  - apply (proj1 (caption_is_stripped unit string Fixture.fx_open_rgb Fixture.fx_generate
                    (fun t => t) (ModelWrapper.init Fixture.fx_probe_cpu) "shoe.jpg" 40 3)
             "a shoe").
    vm_compute. reflexivity.
  - apply (proj2 (caption_is_stripped unit string Fixture.fx_open_rgb Fixture.fx_generate
                    (fun t => t) (ModelWrapper.init Fixture.fx_probe_cpu) "hat.jpg" 40 3)
             FileNotFoundError).
    vm_compute. reflexivity.
Defined.

(** X22. With this captioner plugged into batch inference, every
    [pred_text] string written to the output is stripped. *)
Theorem batch_predictions_are_stripped
  (json_loads : string -> option json)
  (image tokens : Type)
  (open_rgb : string -> result image)
  (generate : bool -> image -> Z -> Z -> result tokens)
  (decode : tokens -> string)
  (self : ModelWrapper.BlipCaptioner) (max_new_tokens num_beams : Z)
  (fs : filesystem) (lim : Z) (lines : list string) (out : list json)
  (r : json) (text : string) :
  Predict.batch_loop json_loads
    (fun path => ModelWrapper.caption image tokens open_rgb generate decode self path
                   max_new_tokens num_beams)
    fs lim lines 0 [] = Ok out ->
  r ∈ out ->
  Predict.field r "pred_text" = Some (JStr text) ->
  strip text = text.
Proof.
  intros Hrun Hr Hfield.
  destruct (batch_loop_provenance _ _ _ _ _ _ _ _ _ Hrun Hr)
    as (line & m & _ & _ & [->|(pred & s & -> & Hcap)]).
  - destruct (not_found_record_fields m) as [Hf _]. congruence.
  - destruct (captioned_record_fields m pred) as [Hf _].
    rewrite Hf in Hfield. injection Hfield as <-.
    unfold ModelWrapper.caption in Hcap.
    destruct (open_rgb s) as [img|e]; [|done]. simpl in Hcap.
    destruct (generate _ img _ _) as [o|e]; [|done]. simpl in Hcap.
    injection Hcap as <-. apply strip_idem.
Qed.

Lemma batch_predictions_are_stripped_witness :
  exists out r,
    Predict.batch_loop Fixture.fx_loads
      (fun path => ModelWrapper.caption unit string Fixture.fx_open_rgb
                     Fixture.fx_generate (fun t => t)
                     (ModelWrapper.init Fixture.fx_probe_cpu) path 40 3)
      Fixture.fx_fs 0 ["shoe"] 0 [] = Ok out
    /\ out = [r]
    /\ Predict.field r "pred_text" = Some (JStr "a shoe")
    /\ strip "a shoe" = "a shoe".
Proof.
  eexists _, _. split; [vm_compute; reflexivity|]. split; [reflexivity|].
  split; [vm_compute; reflexivity|].
  eapply (batch_predictions_are_stripped Fixture.fx_loads unit string Fixture.fx_open_rgb
            Fixture.fx_generate (fun t => t) (ModelWrapper.init Fixture.fx_probe_cpu)
            40 3 Fixture.fx_fs 0 ["shoe"]).
  - vm_compute. reflexivity.
  - apply list_elem_of_here.
  - vm_compute. reflexivity.
Defined.

(** ** src/evaluate.py: what reaches the metric libraries, and the failures *)

Section CollectMore.
Import Evaluate.
Variable json_loads : string -> option json.
Variable py_str : json -> string.

Lemma collect_samples lines acc acc' objs :
  collect json_loads py_str lines acc = Ok acc' ->
  Dataset.records_of_lines json_loads lines = Some objs ->
  c_samples acc' = c_samples acc ++ (sample py_str <$> counted_rows objs).
Proof.
  unfold counted_rows.
  revert acc objs. induction lines as [|line rest IH]; intros acc objs.
  - intros [= <-] [= <-]. by rewrite app_nil_r.
  - simpl. destruct (str_empty (strip line)); [by apply IH|].
    unfold loads. destruct (json_loads (strip line)) as [row|]; [|done].
    destruct row as [| | | | | |m]; try done. simpl.
    destruct (Dataset.records_of_lines json_loads rest) as [ms|] eqn:Ems; [|by intros _ [=]].
    destruct (is_None (default JNull (m !! "error"))) eqn:Eerr; simpl.
    2:{ intros Hrun [= <-]. rewrite (IH _ ms Hrun eq_refl).
        assert (Hc : counted m = false).
        { unfold counted, error_row. by rewrite Eerr. }
        rewrite filter_cons_False by (rewrite Hc; done). done. }
    destruct (negb (truthy (default JNull (m !! "text")))
              || negb (truthy (default JNull (m !! "pred_text")))) eqn:Evalid;
      rewrite <- negb_andb in Evalid.
    + apply negb_true_iff in Evalid.
      intros Hrun [= <-]. rewrite (IH _ ms Hrun eq_refl).
      assert (Hc : counted m = false).
      { unfold counted, valid_pair. rewrite Evalid. apply andb_false_r. }
      rewrite filter_cons_False by (rewrite Hc; done). done.
    + apply negb_false_iff in Evalid.
      intros Hrun [= <-]. rewrite (IH _ ms Hrun eq_refl).
      assert (Hc : counted m = true).
      { unfold counted, error_row, valid_pair. by rewrite Eerr, Evalid. }
      rewrite filter_cons_True by done.
      csimpl. by rewrite <- !app_assoc.
Qed.

End CollectMore.

(** X23. The metric libraries receive the predictions and the references of
    the counted rows, in file order, each converted with [str]; for
    sacrebleu every reference is wrapped in a list of its own.  The samples
    report lists the same rows, with the row's [image_path] or the empty
    string when the row has none: a row without [image_path] is evaluated
    all the same. *)
Theorem metrics_are_computed_on_counted_rows
  (json_loads : string -> option json) (py_str : json -> string)
  (score : Type)
  (sacrebleu : list string -> list (list string) -> result score)
  (rouge : list string -> list string -> result (score * score * score * score))
  (fs : filesystem) (args : Evaluate.Args)
  (m : Evaluate.metrics score) (samples : list (json * string * string)) :
  Evaluate.main json_loads py_str score sacrebleu rouge fs args = Ok (m, samples) ->
  exists lines objs,
    fs (Evaluate.preds args) = Some lines
    /\ Dataset.records_of_lines json_loads lines = Some objs
    /\ sacrebleu (Evaluate.prediction py_str <$> Evaluate.counted_rows objs)
         ((fun r => [Evaluate.reference py_str r]) <$> Evaluate.counted_rows objs)
       = Ok (Evaluate.m_sacrebleu score m)
    /\ rouge (Evaluate.prediction py_str <$> Evaluate.counted_rows objs)
         (Evaluate.reference py_str <$> Evaluate.counted_rows objs)
       = Ok (Evaluate.m_rouge1 score m, Evaluate.m_rouge2 score m,
             Evaluate.m_rougeL score m, Evaluate.m_rougeLsum score m)
    /\ samples
       = slice_to (Evaluate.sample py_str <$> Evaluate.counted_rows objs)
           (Evaluate.max_samples args).
Proof.
  unfold Evaluate.main.
  destruct (fs (Evaluate.preds args)) as [lines|] eqn:Efs; [|done].
  destruct (Evaluate.collect json_loads py_str lines _) as [acc|e] eqn:Ecol; [|done].
  simpl. unfold Evaluate.compute_metrics.
  destruct (sacrebleu _ _) as [b|e] eqn:Eb; [|done]. simpl.
  destruct (rouge _ _) as [[[[r1 r2] rL] rLsum]|e] eqn:Er; [|done]. simpl.
  intros [= <- <-]. simpl.
  destruct (collect_records json_loads py_str lines _ acc Ecol) as (objs & Hobjs & Hp & Hr).
  pose proof (collect_samples json_loads py_str lines _ acc objs Ecol Hobjs) as Hs.
  simpl in Hp, Hr, Hs.
  exists lines, objs. split; [done|]. split; [done|].
  unfold Evaluate.counted_rows, Evaluate.prediction, Evaluate.reference in *.
  rewrite Hp, Hr in Eb. rewrite Hp, Hr in Er.
  rewrite <- list_fmap_compose in Eb.
  split; [exact Eb|]. split; [exact Er|]. by rewrite Hs.
Qed.

Lemma metrics_are_computed_on_counted_rows_witness :
  exists m samples,
    Evaluate.main Fixture.fx_loads Fixture.fx_str Z Fixture.fx_bleu Fixture.fx_rouge
      Fixture.fx_fs Fixture.fx_eval_args = Ok (m, samples)
    /\ samples = [(JStr "shoe.jpg", "red shoe", "a red shoe");
                  (JStr "bag.jpg", "leather bag", "a bag")]
    /\ exists lines objs,
         Fixture.fx_fs (Evaluate.preds Fixture.fx_eval_args) = Some lines
         /\ Dataset.records_of_lines Fixture.fx_loads lines = Some objs
         /\ Fixture.fx_bleu
              (Evaluate.prediction Fixture.fx_str <$> Evaluate.counted_rows objs)
              ((fun r => [Evaluate.reference Fixture.fx_str r])
                 <$> Evaluate.counted_rows objs)
            = Ok (Evaluate.m_sacrebleu Z m)
         /\ Fixture.fx_rouge
              (Evaluate.prediction Fixture.fx_str <$> Evaluate.counted_rows objs)
              (Evaluate.reference Fixture.fx_str <$> Evaluate.counted_rows objs)
            = Ok (Evaluate.m_rouge1 Z m, Evaluate.m_rouge2 Z m,
                  Evaluate.m_rougeL Z m, Evaluate.m_rougeLsum Z m)
         /\ samples
            = slice_to (Evaluate.sample Fixture.fx_str <$> Evaluate.counted_rows objs)
                (Evaluate.max_samples Fixture.fx_eval_args).
Proof.
  eexists _, _. split; [vm_compute; reflexivity|]. split; [reflexivity|].
  eapply (metrics_are_computed_on_counted_rows Fixture.fx_loads Fixture.fx_str Z
            Fixture.fx_bleu Fixture.fx_rouge Fixture.fx_fs Fixture.fx_eval_args).
  vm_compute. reflexivity.
Defined.

Lemma take_length_take {A} (k : nat) (xs : list A) :
  take (length (take k xs)) xs = take k xs.
Proof.
  rewrite length_take. destruct (Nat.le_gt_cases k (length xs)) as [H|H].
  - by rewrite Nat.min_l.
  - rewrite Nat.min_r by lia. rewrite firstn_all. symmetry. apply take_ge. lia.
Qed.

(** X18. The samples report lists the first counted rows of the file, in
    order, and nothing else: [min(max_samples, n)] of them when
    [max_samples] is not negative.  A negative [max_samples] does not mean
    "all": the report then leaves out that many rows from the end and keeps
    the [max(0, n + max_samples)] first ones. *)
Theorem samples_report_is_truncated
  (json_loads : string -> option json) (py_str : json -> string)
  (score : Type)
  (sacrebleu : list string -> list (list string) -> result score)
  (rouge : list string -> list string -> result (score * score * score * score))
  (fs : filesystem) (args : Evaluate.Args)
  (m : Evaluate.metrics score) (samples : list (json * string * string)) :
  Evaluate.main json_loads py_str score sacrebleu rouge fs args = Ok (m, samples) ->
  exists lines objs,
    fs (Evaluate.preds args) = Some lines
    /\ Dataset.records_of_lines json_loads lines = Some objs
    /\ Evaluate.m_n score m = Z.of_nat (length (Evaluate.counted_rows objs))
    /\ samples
       = take (length samples) (Evaluate.sample py_str <$> Evaluate.counted_rows objs)
    /\ (0 <= Evaluate.max_samples args ->
        Z.of_nat (length samples)
        = Z.min (Evaluate.max_samples args) (Evaluate.m_n score m))
    /\ (Evaluate.max_samples args < 0 ->
        Z.of_nat (length samples)
        = Z.max 0 (Evaluate.m_n score m + Evaluate.max_samples args)).
Proof.
  unfold Evaluate.main.
  destruct (fs (Evaluate.preds args)) as [lines|] eqn:Efs; [|done].
  destruct (Evaluate.collect json_loads py_str lines _) as [acc|e] eqn:Ecol; [|done].
  simpl. unfold Evaluate.compute_metrics.
  destruct (sacrebleu _ _) as [b|e]; [|done]. simpl.
  destruct (rouge _ _) as [[[[r1 r2] rL] rLsum]|e]; [|done]. simpl.
  intros [= <- <-]. simpl.
  destruct (collect_records json_loads py_str lines _ acc Ecol) as (objs & Hobjs & Hp & _).
  pose proof (collect_samples json_loads py_str lines _ acc objs Ecol Hobjs) as Hs.
  simpl in Hp, Hs.
  exists lines, objs. split; [done|]. split; [done|].
  assert (Hn : length (Evaluate.c_preds acc) = length (Evaluate.counted_rows objs)).
  { unfold Evaluate.counted_rows. by rewrite Hp, length_fmap. }
  assert (Hlen : length (Evaluate.c_samples acc) = length (Evaluate.counted_rows objs)).
  { by rewrite Hs, length_fmap. }
  split; [by rewrite Hn|]. split.
  - rewrite <- Hs. unfold slice_to.
    destruct (0 <=? Evaluate.max_samples args); by rewrite take_length_take.
  - rewrite slice_to_length, Hlen, Hn.
    split; intros H.
    + by destruct (Z.leb_spec 0 (Evaluate.max_samples args)); [|lia].
    + by destruct (Z.leb_spec 0 (Evaluate.max_samples args)); [lia|].
Qed.

Lemma samples_report_is_truncated_witness :
  exists m samples,
    Evaluate.main Fixture.fx_loads Fixture.fx_str Z Fixture.fx_bleu Fixture.fx_rouge
      Fixture.fx_fs
      {| Evaluate.preds := "preds.jsonl"; Evaluate.out_metrics := "metrics.json";
         Evaluate.out_samples := "samples.md"; Evaluate.max_samples := 1 |}
    = Ok (m, samples)
    /\ Evaluate.m_n Z m = 2
    /\ samples = [(JStr "shoe.jpg", "red shoe", "a red shoe")]
    /\ exists lines objs,
         Fixture.fx_fs "preds.jsonl" = Some lines
         /\ Dataset.records_of_lines Fixture.fx_loads lines = Some objs
         /\ Evaluate.m_n Z m = Z.of_nat (length (Evaluate.counted_rows objs))
         /\ samples
            = take (length samples)
                (Evaluate.sample Fixture.fx_str <$> Evaluate.counted_rows objs)
         /\ (0 <= 1 -> Z.of_nat (length samples) = Z.min 1 (Evaluate.m_n Z m))
         /\ (1 < 0 -> Z.of_nat (length samples) = Z.max 0 (Evaluate.m_n Z m + 1)).
Proof.
  eexists _, _. split; [vm_compute; reflexivity|]. split; [reflexivity|].
  split; [reflexivity|].
  eapply (samples_report_is_truncated Fixture.fx_loads Fixture.fx_str Z
            Fixture.fx_bleu Fixture.fx_rouge Fixture.fx_fs
            {| Evaluate.preds := "preds.jsonl"; Evaluate.out_metrics := "metrics.json";
               Evaluate.out_samples := "samples.md"; Evaluate.max_samples := 1 |}).
  vm_compute. reflexivity.
Defined.

(** X24. The evaluation loop judges a row by its shape, not by what its
    fields hold.  A non-blank line that does not parse raises
    [JSONDecodeError] and a row that is not a JSON object raises
    [AttributeError]; each ends the loop, and no report is produced.  A row
    that is an object never raises, whatever kinds of values it holds under
    [error], [text], [pred_text] and [image_path]: it is counted or skipped
    and the loop goes on with the next line. *)
Theorem evaluation_accepts_every_object_row
  (json_loads : string -> option json) (py_str : json -> string)
  (line : string) (rest : list string) (acc : Evaluate.collected) :
  str_empty (strip line) = false ->
  (json_loads (strip line) = None ->
   Evaluate.collect json_loads py_str (line :: rest) acc = Raise JSONDecodeError)
  /\ (forall v,
        json_loads (strip line) = Some v -> (forall r, v <> JObj r) ->
        Evaluate.collect json_loads py_str (line :: rest) acc = Raise AttributeError)
  /\ (forall r,
        json_loads (strip line) = Some (JObj r) ->
        Evaluate.collect json_loads py_str (line :: rest) acc
        = Evaluate.collect json_loads py_str rest
            (if Evaluate.counted r
             then {| Evaluate.c_preds :=
                       Evaluate.c_preds acc ++ [Evaluate.prediction py_str r];
                     Evaluate.c_refs :=
                       Evaluate.c_refs acc ++ [Evaluate.reference py_str r];
                     Evaluate.c_samples :=
                       Evaluate.c_samples acc ++ [Evaluate.sample py_str r] |}
             else acc))
  /\ (forall score sacrebleu rouge fs args e,
        fs (Evaluate.preds args) = Some (line :: rest) ->
        Evaluate.collect json_loads py_str (line :: rest)
          {| Evaluate.c_preds := []; Evaluate.c_refs := []; Evaluate.c_samples := [] |}
        = Raise e ->
        Evaluate.main json_loads py_str score sacrebleu rouge fs args = Raise e).
Proof.
  intros Hne. split; [|split; [|split]].
  - intros Hrow. simpl. rewrite Hne. unfold Evaluate.loads. by rewrite Hrow.
  - intros v Hrow Hv. simpl. rewrite Hne. unfold Evaluate.loads. rewrite Hrow. simpl.
    destruct v as [| | | | | |r]; try done. by destruct (Hv r).
  - intros r Hrow. simpl. rewrite Hne. unfold Evaluate.loads. rewrite Hrow. simpl.
    unfold Evaluate.counted, Evaluate.error_row, Evaluate.valid_pair.
    destruct (is_None (default JNull (r !! "error"))); simpl; [|done].
    rewrite <- negb_andb.
    by destruct (truthy (default JNull (r !! "text"))
                 && truthy (default JNull (r !! "pred_text"))).
  - intros score sacrebleu rouge fs args e Hfs Hcol.
    unfold Evaluate.main. rewrite Hfs. by rewrite Hcol.
Qed.

Lemma evaluation_accepts_every_object_row_witness :
  str_empty (strip "number") = false
  /\ Evaluate.collect Fixture.fx_loads Fixture.fx_str ("number" :: ["p_shoe"])
       {| Evaluate.c_preds := []; Evaluate.c_refs := []; Evaluate.c_samples := [] |}
     = Raise AttributeError
  /\ str_empty (strip "no_text") = false
  /\ Evaluate.collect Fixture.fx_loads Fixture.fx_str ("no_text" :: ["p_shoe"])
       {| Evaluate.c_preds := []; Evaluate.c_refs := []; Evaluate.c_samples := [] |}
     = Evaluate.collect Fixture.fx_loads Fixture.fx_str ["p_shoe"]
         {| Evaluate.c_preds := []; Evaluate.c_refs := []; Evaluate.c_samples := [] |}.
Proof.
  split; [reflexivity|]. split.
  - apply (proj1 (proj2 (evaluation_accepts_every_object_row Fixture.fx_loads
                           Fixture.fx_str "number" ["p_shoe"] _ eq_refl)) (JInt 7)).
    + reflexivity.
    + discriminate.
  - split; [reflexivity|].
    etransitivity.
    + apply (proj1 (proj2 (proj2 (evaluation_accepts_every_object_row Fixture.fx_loads
                                    Fixture.fx_str "no_text" ["p_shoe"]
                                    {| Evaluate.c_preds := []; Evaluate.c_refs := [];
                                       Evaluate.c_samples := [] |} eq_refl)))
               (list_to_map [("image_path", JStr "sock.jpg")])).
      vm_compute. reflexivity.
    + vm_compute. reflexivity.
Defined.
